(** * Public-comment extraction from meeting minutes: a verified model

    Shallow embedding of [ai_minutes_agent.py] (class [AIMinutesAgent]).

    - [Py]: the Python string primitives the agent uses ([str.strip],
      [str.lower], [str.split], [int], [str]).
    - [Re]: the fragment of Python's [re] module the agent's patterns live
      in, as a backtracking matcher with Python's priority order.
    - [Csv]: the [csv.writer] of the export and a reader for its output.
    - [Agent]: the methods of [AIMinutesAgent], definition by definition.

    A Python [str] is modelled as a Rocq [string] whose characters are the
    code points 0..255 (Latin-1); the character classes below are Python's
    for that range. *)

From Stdlib Require Import ZArith Lia Bool List Ascii String.
From Stdlib Require Import Decimal DecimalString DecimalZ DecimalPos.
From stdpp Require Import base option list sorting strings gmap fin_maps.

Local Open Scope string_scope.
Local Open Scope Z_scope.

#[local] Arguments String.append !_ _ / : simpl nomatch.

(* ===================================================================== *)
(** ** Python string primitives *)
(* ===================================================================== *)

Module Py.

Definition code (c : ascii) : N := N_of_ascii c.

Definition in_range (lo hi : N) (c : ascii) : bool :=
  ((lo <=? code c) && (code c <=? hi))%N.

Definition LF : ascii := ascii_of_N 10.
Definition CR : ascii := ascii_of_N 13.
Definition nl : string := String LF "".
Definition crlf : string := String CR (String LF "").

(** [str.isspace] on one code point: TAB..CR, FS..US, space, NEL, NBSP. *)
Definition isspace (c : ascii) : bool :=
  in_range 9 13 c || in_range 28 32 c
  || (code c =? 133)%N || (code c =? 160)%N.

(** Decimal digits (what [\d] matches). *)
Definition isdecimal (c : ascii) : bool := in_range 48 57 c.

(** [str.isalpha] on Latin-1. *)
Definition isalpha (c : ascii) : bool :=
  in_range 65 90 c || in_range 97 122 c
  || (code c =? 170)%N || (code c =? 181)%N || (code c =? 186)%N
  || in_range 192 214 c || in_range 216 246 c || in_range 248 255 c.

(** [str.isalnum] on Latin-1: letters, digits, superscripts, fractions. *)
Definition isalnum (c : ascii) : bool :=
  isalpha c || isdecimal c
  || (code c =? 178)%N || (code c =? 179)%N || (code c =? 185)%N
  || in_range 188 190 c.

(** What [\w] matches. *)
Definition isword (c : ascii) : bool := isalnum c || (code c =? 95)%N.

Definition lower_char (c : ascii) : ascii :=
  if in_range 65 90 c || (in_range 192 222 c && negb (code c =? 215)%N)
  then ascii_of_N (code c + 32) else c.

(** Simple upper-casing; the two Latin-1 letters whose capital lies outside
    Latin-1 (181 and 255) are left alone. *)
Definition upper_char (c : ascii) : ascii :=
  if in_range 97 122 c || (in_range 224 254 c && negb (code c =? 247)%N)
  then ascii_of_N (code c - 32) else c.

Fixpoint lower (s : string) : string :=
  match s with
  | "" => ""
  | String c s' => String (lower_char c) (lower s')
  end.

Definition len (s : string) : Z := Z.of_nat (String.length s).

Fixpoint lstrip (s : string) : string :=
  match s with
  | "" => ""
  | String c s' => if isspace c then lstrip s' else s
  end.

Fixpoint rstrip (s : string) : string :=
  match s with
  | "" => ""
  | String c s' =>
      match rstrip s' with
      | "" => if isspace c then "" else String c ""
      | r => String c r
      end
  end.

(** [s.strip()] *)
Definition strip (s : string) : string := rstrip (lstrip s).

(** [s.split()]: the maximal runs of non-space characters. *)
Fixpoint split_go (cur : string) (s : string) : list string :=
  match s with
  | "" => match cur with "" => [] | _ => [String.rev cur] end
  | String c s' =>
      if isspace c
      then match cur with
           | "" => split_go "" s'
           | _ => String.rev cur :: split_go "" s'
           end
      else split_go (String c cur) s'
  end.

Definition split (s : string) : list string := split_go "" s.

Fixpoint startswith (p s : string) : bool :=
  match p, s with
  | "", _ => true
  | String a p', String b s' => Ascii.eqb a b && startswith p' s'
  | String _ _, "" => false
  end.

(** [p in s] on strings. *)
Fixpoint contains (p s : string) : bool :=
  startswith p s ||
  match s with
  | "" => false
  | String _ s' => contains p s'
  end.

(** [sep.join(parts)] *)
Fixpoint join (sep : string) (parts : list string) : string :=
  match parts with
  | [] => ""
  | [p] => p
  | p :: ps => p ++ sep ++ join sep ps
  end.

(** [s[i:]] for [0 <= i]. *)
Fixpoint drop (n : nat) (s : string) : string :=
  match n, s with
  | O, _ => s
  | S n', String _ s' => drop n' s'
  | S _, "" => ""
  end.

(** [s[:i]] for [0 <= i]. *)
Fixpoint take (n : nat) (s : string) : string :=
  match n, s with
  | O, _ => ""
  | S n', String c s' => String c (take n' s')
  | S _, "" => ""
  end.

(** [s[i:j]] for [0 <= i], [0 <= j]. *)
Definition slice (i j : nat) (s : string) : string := take (j - i) (drop i s).

(** [int(s)] on a run of decimal digits with an optional minus sign;
    [None] stands for [ValueError]. The agent converts regex groups made
    of [\d] only, and a reader of its export converts what [str] printed. *)
Definition int (s : string) : option Z :=
  option_map Z.of_int (NilZero.int_of_string s).

(** [s.endswith(suffix)] *)
Definition endswith (suffix s : string) : bool :=
  (String.length suffix <=? String.length s)%nat
  && String.eqb (drop (String.length s - String.length suffix) s) suffix.

(** [str(n)] *)
Definition str (n : Z) : string := NilZero.string_of_int (Z.to_int n).

(** [f"{n:02d}"] for [0 <= n]. *)
Definition fmt02 (n : Z) : string :=
  if n <? 10 then String "0" (str n) else str n.

End Py.

(* ===================================================================== *)
(** ** The [re] fragment *)
(* ===================================================================== *)

Module Re.

(** Members of a bracket expression. *)
Inductive citem : Type :=
| Chr (c : ascii)
| Range (lo hi : ascii)
| Digit                       (* \d *)
| Space                       (* \s *)
| Word.                       (* \w *)

(** Patterns that consume exactly one character. *)
Inductive atom : Type :=
| Lit (c : ascii)
| Any                         (* . *)
| OneOf (cs : list citem)     (* [...] *)
| NoneOf (cs : list citem).   (* [^...] *)

(** Every quantifier in the agent's patterns is applied to a one-character
    pattern, so [Repeat] takes an [atom]. *)
Inductive regex : Type :=
| Empty
| Atom (a : atom)
| Seq (r1 r2 : regex)
| Or (r1 r2 : regex)
| Repeat (a : atom) (lo : nat) (hi : option nat) (greedy : bool)
| Group (n : nat) (r : regex)
| LookAhead (r : regex)       (* (?=r) *)
| LookBehind (a : atom)       (* (?<=a) *)
| Bos                         (* ^  without re.MULTILINE *)
| Eos                         (* $  without re.MULTILINE *)
| EndAbs                      (* \Z *)
| Boundary.                   (* \b *)

Record flags : Type := Flags { ignorecase : bool; dotall : bool }.

Definition NOFLAGS : flags := Flags false false.
Definition IGNORECASE : flags := Flags true false.
Definition DOTALL_IGNORECASE : flags := Flags true true.

Definition citem_match (ic : bool) (it : citem) (c : ascii) : bool :=
  match it with
  | Chr x =>
      if ic then Ascii.eqb (Py.lower_char c) (Py.lower_char x)
      else Ascii.eqb c x
  | Range lo hi =>
      if ic
      then Py.in_range (Py.code lo) (Py.code hi) (Py.lower_char c)
           || Py.in_range (Py.code lo) (Py.code hi)
                (Py.upper_char (Py.lower_char c))
      else Py.in_range (Py.code lo) (Py.code hi) c
  | Digit => Py.isdecimal c
  | Space => Py.isspace c
  | Word => Py.isword c
  end.

Definition atom_match (fl : flags) (a : atom) (c : ascii) : bool :=
  match a with
  | Lit x => citem_match (ignorecase fl) (Chr x) c
  | Any => dotall fl || negb (Ascii.eqb c Py.LF)
  | OneOf cs => existsb (fun it => citem_match (ignorecase fl) it c) cs
  | NoneOf cs => negb (existsb (fun it => citem_match (ignorecase fl) it c) cs)
  end.

(** A position in the subject: the character just before it ([None] at
    the very start) and the text still ahead. *)
Record cursor : Type := Cursor { before : option ascii; rest : string }.

Definition captures : Type := list (nat * string).
Definition outcome : Type := (cursor * captures)%type.

(** The text between two positions of one subject. *)
Definition consumed (s0 s1 : string) : string :=
  Py.take (String.length s0 - String.length s1) s0.

Definition word_before (cur : cursor) : bool :=
  match before cur with Some c => Py.isword c | None => false end.

Definition word_after (cur : cursor) : bool :=
  match rest cur with String c _ => Py.isword c | "" => false end.

Definition orelse {A} (x : option A) (y : unit -> option A) : option A :=
  match x with Some v => Some v | None => y tt end.

Section matcher.
Variable fl : flags.

Definition room (hi : option nat) : bool :=
  match hi with Some O => false | _ => true end.

Definition less (hi : option nat) : option nat :=
  match hi with Some n => Some (Nat.pred n) | None => None end.

(** [a{lo,hi}] (greedy) or [a{lo,hi}?] (lazy) followed by [k]. *)
Fixpoint repeat_match (a : atom) (greedy : bool) (lo : nat) (hi : option nat)
    (prev : option ascii) (s : string) (k : cursor -> option outcome)
    {struct s} : option outcome :=
  match lo with
  | S lo' =>
      match s with
      | String c s' =>
          if room hi && atom_match fl a c
          then repeat_match a greedy lo' (less hi) (Some c) s' k
          else None
      | "" => None
      end
  | O =>
      if greedy then
        orelse
          match s with
          | String c s' =>
              if room hi && atom_match fl a c
              then repeat_match a greedy O (less hi) (Some c) s' k
              else None
          | "" => None
          end
          (fun _ => k (Cursor prev s))
      else
        orelse (k (Cursor prev s))
          (fun _ =>
             match s with
             | String c s' =>
                 if room hi && atom_match fl a c
                 then repeat_match a greedy O (less hi) (Some c) s' k
                 else None
             | "" => None
             end)
  end.

(** [run r cur caps k]: the first way, in Python's priority order, of
    matching [r] at [cur] such that the continuation [k] succeeds. *)
Fixpoint run (r : regex) (cur : cursor) (caps : captures)
    (k : cursor -> captures -> option outcome) : option outcome :=
  match r with
  | Empty => k cur caps
  | Atom a =>
      match rest cur with
      | String c s' =>
          if atom_match fl a c then k (Cursor (Some c) s') caps else None
      | "" => None
      end
  | Seq r1 r2 => run r1 cur caps (fun cur' caps' => run r2 cur' caps' k)
  | Or r1 r2 => orelse (run r1 cur caps k) (fun _ => run r2 cur caps k)
  | Repeat a lo hi greedy =>
      repeat_match a greedy lo hi (before cur) (rest cur)
        (fun cur' => k cur' caps)
  | Group n r1 =>
      run r1 cur caps
        (fun cur' caps' =>
           k cur' ((n, consumed (rest cur) (rest cur')) :: caps'))
  | LookAhead r1 =>
      match run r1 cur caps (fun c' cp' => Some (c', cp')) with
      | Some (_, caps') => k cur caps'
      | None => None
      end
  | LookBehind a =>
      match before cur with
      | Some c => if atom_match fl a c then k cur caps else None
      | None => None
      end
  | Bos => match before cur with None => k cur caps | Some _ => None end
  | Eos =>
      match rest cur with
      | "" => k cur caps
      | String c "" => if Ascii.eqb c Py.LF then k cur caps else None
      | _ => None
      end
  | EndAbs => match rest cur with "" => k cur caps | _ => None end
  | Boundary =>
      if xorb (word_before cur) (word_after cur) then k cur caps else None
  end.

Definition accept (cur : cursor) (caps : captures) : option outcome :=
  Some (cur, caps).

(** A match object: [m.start()], [m.end()] and the groups. *)
Record found : Type :=
  Found { m_start : nat; m_end : nat; m_caps : captures }.

Definition at_cursor (r : regex) (pos : nat) (cur : cursor) : option found :=
  match run r cur [] accept with
  | Some (cur', caps) =>
      Some (Found pos
              (pos + (String.length (rest cur) - String.length (rest cur')))
              caps)
  | None => None
  end.

(** [re.match(r, s)] *)
Definition match_ (r : regex) (s : string) : option found :=
  at_cursor r 0 (Cursor None s).

Fixpoint search_from (r : regex) (prev : option ascii) (pos : nat)
    (s : string) : option found :=
  match at_cursor r pos (Cursor prev s) with
  | Some m => Some m
  | None =>
      match s with
      | String c s' => search_from r (Some c) (S pos) s'
      | "" => None
      end
  end.

(** [re.search(r, s)] *)
Definition search (r : regex) (s : string) : option found :=
  search_from r None 0 s.

(** Scanning for successive non-overlapping matches: [skip] counts the
    characters of the previous match still to step over. *)
Fixpoint finditer_from (r : regex) (prev : option ascii) (pos : nat)
    (skip : nat) (s : string) : list found :=
  match skip with
  | S n =>
      match s with
      | String c s' => finditer_from r (Some c) (S pos) n s'
      | "" => []
      end
  | O =>
      match at_cursor r pos (Cursor prev s) with
      | Some m =>
          m :: match s with
               | String c s' =>
                   finditer_from r (Some c) (S pos)
                     (Nat.pred (m_end m - m_start m)) s'
               | "" => []
               end
      | None =>
          match s with
          | String c s' => finditer_from r (Some c) (S pos) O s'
          | "" => []
          end
      end
  end.

(** [list(re.finditer(r, s))] *)
Definition finditer (r : regex) (s : string) : list found :=
  finditer_from r None 0 0 s.

(** [re.split(r, s)] for a pattern without groups: the pieces of [s]
    between successive matches; [piece] is the current piece, reversed. *)
Fixpoint split_from (r : regex) (prev : option ascii) (skip : nat)
    (piece : string) (s : string) : list string :=
  match skip with
  | S n =>
      match s with
      | String c s' => split_from r (Some c) n piece s'
      | "" => [String.rev piece]
      end
  | O =>
      match at_cursor r 0 (Cursor prev s), s with
      | Some m, String c s' =>
          match m_end m with
          | O => split_from r (Some c) O (String c piece) s'
          | S n => String.rev piece :: split_from r (Some c) n "" s'
          end
      | None, String c s' => split_from r (Some c) O (String c piece) s'
      | _, "" => [String.rev piece]
      end
  end.

Definition split (r : regex) (s : string) : list string :=
  split_from r None 0 "" s.

(** [re.sub(r, repl, s)] for a group-free pattern and a literal [repl]. *)
Definition sub (r : regex) (repl : string) (s : string) : string :=
  Py.join repl (split r s).

End matcher.

(** [m.group(n)]; a group that took no part in the match is [None]. *)
Fixpoint group (n : nat) (caps : captures) : option string :=
  match caps with
  | [] => None
  | (i, s) :: caps' => if Nat.eqb i n then Some s else group n caps'
  end.

(** [m.groups()] of a pattern with three groups, all of which took part. *)
Definition groups3 (m : found) : option (string * string * string) :=
  match group 1 (m_caps m), group 2 (m_caps m), group 3 (m_caps m) with
  | Some g1, Some g2, Some g3 => Some (g1, g2, g3)
  | _, _, _ => None
  end.

(** *** Pattern combinators *)

Fixpoint lit (s : string) : regex :=
  match s with
  | "" => Empty
  | String c "" => Atom (Lit c)
  | String c s' => Seq (Atom (Lit c)) (lit s')
  end.

Fixpoint seq (rs : list regex) : regex :=
  match rs with
  | [] => Empty
  | [r] => r
  | r :: rs' => Seq r (seq rs')
  end.

Fixpoint alt (rs : list regex) : regex :=
  match rs with
  | [] => Empty
  | [r] => r
  | r :: rs' => Or r (alt rs')
  end.

Definition star (a : atom) : regex := Repeat a 0 None true.        (* a*  *)
Definition plus (a : atom) : regex := Repeat a 1 None true.        (* a+  *)
Definition opt (a : atom) : regex := Repeat a 0 (Some 1%nat) true. (* a?  *)
Definition lazy_star (a : atom) : regex := Repeat a 0 None false.  (* a*? *)
Definition times (a : atom) (lo hi : nat) : regex :=               (* a{lo,hi} *)
  Repeat a lo (Some hi) true.

Definition d : atom := OneOf [Digit].   (* \d *)
Definition ws : atom := OneOf [Space].  (* \s *)

End Re.

(* ===================================================================== *)
(** ** The [csv] module, dialect [excel] *)
(* ===================================================================== *)

Module Csv.

Definition QUOTE : ascii := ascii_of_N 34.
Definition COMMA : ascii := ",".

(** Characters that force a field into quotes under [QUOTE_MINIMAL]: the
    delimiter, the quote character and those of the line terminator. *)
Definition special (c : ascii) : bool :=
  Ascii.eqb c COMMA || Ascii.eqb c QUOTE
  || Ascii.eqb c Py.CR || Ascii.eqb c Py.LF.

Fixpoint needs_quotes (field : string) : bool :=
  match field with
  | "" => false
  | String c s => special c || needs_quotes s
  end.

(** [doublequote]: every quote character of the field is written twice. *)
Fixpoint escape (field : string) : string :=
  match field with
  | "" => ""
  | String c s =>
      if Ascii.eqb c QUOTE then String QUOTE (String QUOTE (escape s))
      else String c (escape s)
  end.

Definition write_field (field : string) : string :=
  if needs_quotes field
  then String QUOTE (escape field ++ String QUOTE "")
  else field.

(** [writer.writerow(fields)]: the text appended to the file. A row made
    of one empty field is written as a pair of quotes. *)
Definition writerow (fields : list string) : string :=
  match fields with
  | [""] => String QUOTE (String QUOTE Py.crlf)
  | _ => Py.join "," (map write_field fields) ++ Py.crlf
  end.

(** [csv.reader] over a file opened with [newline='']. The file iterator
    ends a line after LF, after CR LF, or after a CR that no LF follows;
    [AFTER_CR] is the start of a record where one LF is still part of the
    line that just ended. *)
Inductive state : Type :=
| START_RECORD
| AFTER_CR
| START_FIELD
| IN_FIELD
| IN_QUOTED_FIELD
| QUOTE_IN_QUOTED_FIELD.

Record reader : Type :=
  Reader { st : state;
           field : string;               (* the field being read *)
           fields : list string;         (* the fields of this record *)
           records : list (list string)  (* the records read so far *) }.

Definition add_char (c : ascii) (s : state) (r : reader) : reader :=
  Reader s (field r ++ String c "") (fields r) (records r).

Definition save_field (s : state) (r : reader) : reader :=
  Reader s "" (fields r ++ [field r]) (records r).

Definition end_record (s : state) (r : reader) : reader :=
  Reader s "" [] (records r ++ [fields r]).

Definition end_line (c : ascii) (r : reader) : reader :=
  end_record (if Ascii.eqb c Py.CR then AFTER_CR else START_RECORD) r.

Definition is_newline (c : ascii) : bool :=
  Ascii.eqb c Py.CR || Ascii.eqb c Py.LF.

Definition start_field (c : ascii) (r : reader) : reader :=
  if is_newline c then end_line c (save_field START_FIELD r)
  else if Ascii.eqb c QUOTE then
    Reader IN_QUOTED_FIELD (field r) (fields r) (records r)
  else if Ascii.eqb c COMMA then save_field START_FIELD r
  else add_char c IN_FIELD r.

Definition start_record (c : ascii) (r : reader) : reader :=
  if is_newline c then end_line c r else start_field c r.

Definition step (r : reader) (c : ascii) : reader :=
  match st r with
  | START_RECORD => start_record c r
  | AFTER_CR =>
      if Ascii.eqb c Py.LF
      then Reader START_RECORD (field r) (fields r) (records r)
      else start_record c r
  | START_FIELD => start_field c r
  | IN_FIELD =>
      if is_newline c then end_line c (save_field START_FIELD r)
      else if Ascii.eqb c COMMA then save_field START_FIELD r
      else add_char c IN_FIELD r
  | IN_QUOTED_FIELD =>
      if Ascii.eqb c QUOTE
      then Reader QUOTE_IN_QUOTED_FIELD (field r) (fields r) (records r)
      else add_char c IN_QUOTED_FIELD r
  | QUOTE_IN_QUOTED_FIELD =>
      if Ascii.eqb c QUOTE then add_char c IN_QUOTED_FIELD r
      else if Ascii.eqb c COMMA then save_field START_FIELD r
      else if is_newline c then end_line c (save_field START_FIELD r)
      else add_char c IN_FIELD r
  end.

Fixpoint feed (r : reader) (text : string) : reader :=
  match text with
  | "" => r
  | String c text' => feed (step r c) text'
  end.

(** End of input: a last line without terminator still ends its record. *)
Definition finish (r : reader) : list (list string) :=
  match st r with
  | START_RECORD | AFTER_CR => records r
  | _ => records (end_record START_RECORD (save_field START_FIELD r))
  end.

(** [list(csv.reader(f))] *)
Definition read (text : string) : list (list string) :=
  finish (feed (Reader START_RECORD "" [] []) text).

End Csv.

(* ===================================================================== *)
(** ** The agent *)
(* ===================================================================== *)

Module Agent.
Import Re.

(** *** [extract_date_from_filename] *)

(** The separator class [[.\-_/]]. *)
Definition dsep : atom := OneOf [Chr "."; Chr "-"; Chr "_"; Chr "/"].

(** [[a-zA-Z\s]] *)
Definition alpha_ws : atom := OneOf [Range "a" "z"; Range "A" "Z"; Space].

Definition date_patterns : list regex :=
  [ (* (\d{1,2})[.\-_/](\d{1,2})[.\-_/](\d{4}) *)
    seq [Group 1 (times d 1 2); Atom dsep; Group 2 (times d 1 2); Atom dsep;
         Group 3 (times d 4 4)];
    (* (\d{1,2})[.\-_/](\d{1,2})[.\-_/](\d{2}) *)
    seq [Group 1 (times d 1 2); Atom dsep; Group 2 (times d 1 2); Atom dsep;
         Group 3 (times d 2 2)];
    (* (\d{4})[.\-_/](\d{1,2})[.\-_/](\d{1,2}) *)
    seq [Group 1 (times d 4 4); Atom dsep; Group 2 (times d 1 2); Atom dsep;
         Group 3 (times d 1 2)];
    (* \s+(\d{1,2})[.\-_/]\s*(\d{1,2})[.\-_/]\s*(\d{4}) *)
    seq [plus ws; Group 1 (times d 1 2); Atom dsep; star ws;
         Group 2 (times d 1 2); Atom dsep; star ws; Group 3 (times d 4 4)];
    (* \s+(\d{1,2})[.\-_/]\s*(\d{1,2})[.\-_/]\s*(\d{2}) *)
    seq [plus ws; Group 1 (times d 1 2); Atom dsep; star ws;
         Group 2 (times d 1 2); Atom dsep; star ws; Group 3 (times d 2 2)];
    (* (\d{1,2})\s*[.\-_/]\s*(\d{1,2})\s*[.\-_/]\s*(\d{4}) *)
    seq [Group 1 (times d 1 2); star ws; Atom dsep; star ws;
         Group 2 (times d 1 2); star ws; Atom dsep; star ws;
         Group 3 (times d 4 4)];
    (* (\d{1,2})\s*[.\-_/]\s*(\d{1,2})\s*[.\-_/]\s*(\d{2}) *)
    seq [Group 1 (times d 1 2); star ws; Atom dsep; star ws;
         Group 2 (times d 1 2); star ws; Atom dsep; star ws;
         Group 3 (times d 2 2)];
    (* (\d{2})(\d{2})(\d{4}) *)
    seq [Group 1 (times d 2 2); Group 2 (times d 2 2); Group 3 (times d 4 4)];
    (* (\d{1})(\d{2})(\d{4}) *)
    seq [Group 1 (times d 1 1); Group 2 (times d 2 2); Group 3 (times d 4 4)];
    (* (\d{2})(\d{1})(\d{4}) *)
    seq [Group 1 (times d 2 2); Group 2 (times d 1 1); Group 3 (times d 4 4)];
    (* (\d{1})(\d{1})(\d{4}) *)
    seq [Group 1 (times d 1 1); Group 2 (times d 1 1); Group 3 (times d 4 4)];
    (* (\d{2})(\d{2})(\d{2}) *)
    seq [Group 1 (times d 2 2); Group 2 (times d 2 2); Group 3 (times d 2 2)];
    (* [a-zA-Z\s]+(\d{1,2})[.\-_/](\d{1,2})[.\-_/](\d{2,4})[a-zA-Z\s]* *)
    seq [plus alpha_ws; Group 1 (times d 1 2); Atom dsep;
         Group 2 (times d 1 2); Atom dsep; Group 3 (times d 2 4);
         star alpha_ws] ].

(** [match.groups()]: each date pattern has three groups, and all three
    take part in every match. *)
Definition groups_of (m : found) : string * string * string :=
  (default "" (group 1 (m_caps m)),
   default "" (group 2 (m_caps m)),
   default "" (group 3 (m_caps m))).

(** The list [candidates]: for every pattern in order, the groups of every
    match from left to right. *)
Definition candidates (filename : string) : list (string * string * string) :=
  concat (map (fun pattern => map groups_of (finditer NOFLAGS pattern filename))
              date_patterns).

Definition is_leap (year : Z) : bool :=
  (year mod 4 =? 0) && (negb (year mod 100 =? 0) || (year mod 400 =? 0)).

Definition days_in_month (year month : Z) : Z :=
  if month =? 2 then (if is_leap year then 29 else 28)
  else if (month =? 4) || (month =? 6) || (month =? 9) || (month =? 11)
       then 30 else 31.

(** [datetime.date(year, month, day)] does not raise [ValueError]. *)
Definition valid_date (year month day : Z) : bool :=
  (1 <=? year) && (year <=? 9999) && (1 <=? month) && (month <=? 12)
  && (1 <=? day) && (day <=? days_in_month year month).

(** [f"{month:02d}.{day:02d}.{year}"] *)
Definition format_date (month day year : Z) : string :=
  Py.fmt02 month ++ "." ++ Py.fmt02 day ++ "." ++ Py.str year.

(** Century inference for a two-digit year. *)
Definition expand_year (year_short : Z) : Z :=
  if year_short <=? 50 then 2000 + year_short else 1900 + year_short.

(** Which group is which: [Some (year, month, day)], or [None] for the
    [continue] of an unrecognised shape or of a [ValueError] from [int]. *)
Definition read_candidate (g1 g2 g3 : string) : option (Z * Z * Z) :=
  if Py.len g3 =? 4 then
    year ← Py.int g3; month ← Py.int g1; day ← Py.int g2;
    Some (year, month, day)
  else if Py.len g3 =? 2 then
    year_short ← Py.int g3; month ← Py.int g1; day ← Py.int g2;
    Some (expand_year year_short, month, day)
  else if Py.len g1 =? 4 then
    year ← Py.int g1; month ← Py.int g2; day ← Py.int g3;
    Some (year, month, day)
  else None.

(** The body of the validation loop: [Some date] when it returns, [None]
    when it continues with the next candidate. *)
Definition check_candidate (candidate : string * string * string) : option string :=
  let '(g1, g2, g3) := candidate in
  '(year, month, day) ← read_candidate g1 g2 g3;
  '(month, day) ←
     (if (1 <=? month) && (month <=? 12) then Some (month, day)
      else if (1 <=? day) && (day <=? 12) then Some (day, month)
      else None);
  if negb ((1 <=? day) && (day <=? 31)) then None
  else if negb ((1990 <=? year) && (year <=? 2030)) then None
  else if negb (valid_date year month day) then None
  else Some (format_date month day year).

Fixpoint first_some {A B} (f : A -> option B) (l : list A) : option B :=
  match l with
  | [] => None
  | x :: l' => match f x with Some y => Some y | None => first_some f l' end
  end.

(** [\b(name1|name2)\b.*?(\d{1,2}).*?(\d{2,4})] *)
Definition month_pattern (names : list string) : regex :=
  seq [Boundary; Group 1 (alt (map lit names)); Boundary; lazy_star Any;
       Group 2 (times d 1 2); lazy_star Any; Group 3 (times d 2 4)].

Definition month_patterns : list (regex * Z) :=
  [ (month_pattern ["jan"; "january"], 1);
    (month_pattern ["feb"; "february"], 2);
    (month_pattern ["mar"; "march"], 3);
    (month_pattern ["apr"; "april"], 4);
    (month_pattern ["may"], 5);
    (month_pattern ["jun"; "june"], 6);
    (month_pattern ["jul"; "july"], 7);
    (month_pattern ["aug"; "august"], 8);
    (month_pattern ["sep"; "september"], 9);
    (month_pattern ["oct"; "october"], 10);
    (month_pattern ["nov"; "november"], 11);
    (month_pattern ["dec"; "december"], 12) ].

(** The body of the month-name loop. *)
Definition check_month (filename_lower : string) (entry : regex * Z) : option string :=
  let '(pattern, month) := entry in
  m ← search NOFLAGS pattern filename_lower;
  day ← Py.int (default "" (group 2 (m_caps m)));
  let year_str := default "" (group 3 (m_caps m)) in
  year ← Py.int year_str;
  let year := if Py.len year_str =? 2 then expand_year year else year in
  if (1 <=? day) && (day <=? 31) && (1990 <=? year) && (year <=? 2030)
  then Some (format_date month day year)
  else None.

Definition extract_date_from_filename (filename : string) : string :=
  match first_some check_candidate (candidates filename) with
  | Some date => date
  | None =>
      match first_some (check_month (Py.lower filename)) month_patterns with
      | Some date => date
      | None => "Unknown Date"
      end
  end.

(** *** [extract_open_forum_section] *)

(** [[A-Z]] *)
Definition upper_az : atom := OneOf [Range "A" "Z"].

(** [(.*?)], the captured span. *)
Definition span : regex := Group 1 (lazy_star Any).

(** [[Oo]pen\s+[Ff]orum] *)
Definition open_forum_any_case : list regex :=
  [Atom (OneOf [Chr "O"; Chr "o"]); lit "pen"; plus ws;
   Atom (OneOf [Chr "F"; Chr "f"]); lit "orum"].

Definition open_forum_patterns : list regex :=
  [ (* V\.\s*Open Forum(.*?)(?=VI\.|Discussion Item|VII\.|Action Items|Motion|Adjournment|\Z) *)
    seq [lit "V."; star ws; lit "Open Forum"; span;
         LookAhead (alt [lit "VI."; lit "Discussion Item"; lit "VII.";
                         lit "Action Items"; lit "Motion"; lit "Adjournment";
                         EndAbs])];
    (* 5\.\s*Open Forum(.*?)(?=6\.|Discussion Item|7\.|Action Items|Motion|Adjournment|\Z) *)
    seq [lit "5."; star ws; lit "Open Forum"; span;
         LookAhead (alt [lit "6."; lit "Discussion Item"; lit "7.";
                         lit "Action Items"; lit "Motion"; lit "Adjournment";
                         EndAbs])];
    (* Open Forum(.*?)(?=Discussion Item|Action Items|Motion|Adjournment|Next Meeting|\Z) *)
    seq [lit "Open Forum"; span;
         LookAhead (alt [lit "Discussion Item"; lit "Action Items";
                         lit "Motion"; lit "Adjournment"; lit "Next Meeting";
                         EndAbs])];
    (* V\.\s*[A-Z]{4}\s+[A-Z]{5}(.*?)(?=VI\.|Discussion Item|VII\.|Action Items|Motion|Adjournment|\Z) *)
    seq [lit "V."; star ws; times upper_az 4 4; plus ws; times upper_az 5 5;
         span;
         LookAhead (alt [lit "VI."; lit "Discussion Item"; lit "VII.";
                         lit "Action Items"; lit "Motion"; lit "Adjournment";
                         EndAbs])];
    (* 5\.\s*[A-Z]{4}\s+[A-Z]{5}(.*?)(?=6\.|Discussion Item|7\.|Action Items|Motion|Adjournment|\Z) *)
    seq [lit "5."; star ws; times upper_az 4 4; plus ws; times upper_az 5 5;
         span;
         LookAhead (alt [lit "6."; lit "Discussion Item"; lit "7.";
                         lit "Action Items"; lit "Motion"; lit "Adjournment";
                         EndAbs])];
    (* 9\.\s*[A-Z]{4}\s+[A-Z]{5}(.*?)(?=VI\.|Discussion Item|VII\.|Action Items|Motion|Adjournment|9I\.|10\.|AQQRXQFHPHQWV|AGMRXUQPHQW|\Z) *)
    seq [lit "9."; star ws; times upper_az 4 4; plus ws; times upper_az 5 5;
         span;
         LookAhead (alt [lit "VI."; lit "Discussion Item"; lit "VII.";
                         lit "Action Items"; lit "Motion"; lit "Adjournment";
                         lit "9I."; lit "10."; lit "AQQRXQFHPHQWV";
                         lit "AGMRXUQPHQW"; EndAbs])];
    (* 9\.\s*OSHQ\s+FRUXP(.*?)(?=9I\.|VI\.|Discussion Item|VII\.|Action Items|Motion|Adjournment|AQQRXQFHPHQWV|AGMRXUQPHQW|\Z) *)
    seq [lit "9."; star ws; lit "OSHQ"; plus ws; lit "FRUXP"; span;
         LookAhead (alt [lit "9I."; lit "VI."; lit "Discussion Item";
                         lit "VII."; lit "Action Items"; lit "Motion";
                         lit "Adjournment"; lit "AQQRXQFHPHQWV";
                         lit "AGMRXUQPHQW"; EndAbs])];
    (* [IV]*\.\s*[Oo]pen\s+[Ff]orum(.*?)(?=[IV]*\.|Discussion|Action|Motion|Adjournment|Next Meeting|\Z) *)
    seq (([star (OneOf [Chr "I"; Chr "V"]); lit "."; star ws]
         ++ open_forum_any_case
         ++ [span;
             LookAhead (alt [seq [star (OneOf [Chr "I"; Chr "V"]); lit "."];
                             lit "Discussion"; lit "Action"; lit "Motion";
                             lit "Adjournment"; lit "Next Meeting"; EndAbs])])%list);
    (* \d+\.\s*[Oo]pen\s+[Ff]orum(.*?)(?=\d+\.|Discussion|Action|Motion|Adjournment|Next Meeting|\Z) *)
    seq (([plus d; lit "."; star ws]
         ++ open_forum_any_case
         ++ [span;
             LookAhead (alt [seq [plus d; lit "."];
                             lit "Discussion"; lit "Action"; lit "Motion";
                             lit "Adjournment"; lit "Next Meeting"; EndAbs])])%list) ].

(** The body of the cascade loop: [match.group(1).strip()] when the
    pattern is found. *)
Definition try_section (text : string) (pattern : regex) : option string :=
  m ← search DOTALL_IGNORECASE pattern text;
  Some (Py.strip (default "" (group 1 (m_caps m)))).

Definition extract_open_forum_section (text : string) : option string :=
  first_some (try_section text) open_forum_patterns.

(** *** [has_no_comments] *)

(** [n/?a] *)
Definition n_a : regex := seq [lit "n"; opt (Lit "/"); lit "a"].

Definition no_comment_patterns : list regex :=
  [ (* \b(no open forum|no comments?|none|n/?a|not applicable)\b *)
    seq [Boundary;
         Group 1 (alt [lit "no open forum";
                       seq [lit "no comment"; opt (Lit "s")];
                       lit "none"; n_a; lit "not applicable"]);
         Boundary];
    (* \b(no public comment|no discussion|no speakers?)\b *)
    seq [Boundary;
         Group 1 (alt [lit "no public comment"; lit "no discussion";
                       seq [lit "no speaker"; opt (Lit "s")]]);
         Boundary];
    (* \b(no one spoke|no attendees|no participants)\b *)
    seq [Boundary;
         Group 1 (alt [lit "no one spoke"; lit "no attendees";
                       lit "no participants"]);
         Boundary];
    (* ^\s*(none|n/?a)\s*\.?\s*$ *)
    seq [Bos; star ws; Group 1 (alt [lit "none"; n_a]); star ws;
         opt (Lit "."); star ws; Eos] ].

Definition has_no_comments (text : string) : bool :=
  existsb (fun pattern => bool_decide (is_Some (search IGNORECASE pattern text)))
          no_comment_patterns.

(** *** [is_only_admin_content] *)

(** [re.sub(r'\s+', ' ', s)] *)
Definition collapse_ws (s : string) : string := sub NOFLAGS (plus ws) " " s.

Definition admin_only_patterns : list regex :=
  [ (* ^[A-Za-z0-9\s\-:]+envelope\s+id[:\s]*[A-Za-z0-9\-]+\s*$ *)
    seq [Bos;
         plus (OneOf [Range "A" "Z"; Range "a" "z"; Range "0" "9"; Space;
                      Chr "-"; Chr ":"]);
         lit "envelope"; plus ws; lit "id"; star (OneOf [Chr ":"; Space]);
         plus (OneOf [Range "A" "Z"; Range "a" "z"; Range "0" "9"; Chr "-"]);
         star ws; Eos];
    (* ^page\s+\d+\s*$ *)
    seq [Bos; lit "page"; plus ws; plus d; star ws; Eos];
    (* ^continued\s*$ *)
    seq [Bos; lit "continued"; star ws; Eos];
    (* ^end\s*$ *)
    seq [Bos; lit "end"; star ws; Eos];
    (* ^\s*$ *)
    seq [Bos; star ws; Eos] ].

Definition admin_words : list string :=
  ["docusign"; "envelope"; "id"; "page"; "continued"; "end"].

Definition is_only_admin_content (text : string) : bool :=
  let clean_text := collapse_ws (Py.strip text) in
  if Py.len clean_text <? 10 then true
  else if existsb (fun pattern =>
                     bool_decide (is_Some (match_ IGNORECASE pattern clean_text)))
                  admin_only_patterns then true
  else
    let words := Py.split (Py.lower clean_text) in
    let non_admin_words :=
      filter (fun w => negb (existsb (fun admin => Py.contains admin w) admin_words))
             words in
    if Z.of_nat (length non_admin_words) <? 3 then true else false.

(** *** [is_admin_paragraph] *)

Definition admin_patterns : list regex :=
  [ (* docusign\s+envelope\s+id: *)
    seq [lit "docusign"; plus ws; lit "envelope"; plus ws; lit "id:"];
    (* page\s+\d+ *)
    seq [lit "page"; plus ws; plus d];
    (* ^continued\s*$ *)
    seq [Bos; lit "continued"; star ws; Eos];
    (* ^end\s*$ *)
    seq [Bos; lit "end"; star ws; Eos];
    (* ^\s*\d+\s*$ *)
    seq [Bos; star ws; plus d; star ws; Eos];
    (* meeting\s+id: *)
    seq [lit "meeting"; plus ws; lit "id:"];
    (* zoom\s+call: *)
    seq [lit "zoom"; plus ws; lit "call:"];
    (* passcode: *)
    lit "passcode:" ].

(** The five [re.sub(..., '', ..., flags=re.IGNORECASE)] of the long branch,
    in order. *)
Definition admin_phrases : list regex :=
  [ (* docusign\s+envelope\s+id:\s*[a-f0-9\-]+ *)
    seq [lit "docusign"; plus ws; lit "envelope"; plus ws; lit "id:"; star ws;
         plus (OneOf [Range "a" "f"; Range "0" "9"; Chr "-"])];
    (* page\s+\d+ *)
    seq [lit "page"; plus ws; plus d];
    (* meeting\s+id:\s*\d+ *)
    seq [lit "meeting"; plus ws; lit "id:"; star ws; plus d];
    (* zoom\s+call:\s*https?://[^\s]+ *)
    seq [lit "zoom"; plus ws; lit "call:"; star ws; lit "http"; opt (Lit "s");
         lit "://"; plus (NoneOf [Space])];
    (* passcode:\s*\w+ *)
    seq [lit "passcode:"; star ws; plus (OneOf [Word])] ].

Definition is_admin_paragraph (paragraph : string) : bool :=
  let clean_para := Py.lower (Py.strip paragraph) in
  if (Py.len clean_para <? 50)
     && existsb (fun pattern =>
                   bool_decide (is_Some (search NOFLAGS pattern clean_para)))
                admin_patterns
  then true
  else if 100 <? Py.len clean_para then
    let temp_text :=
      fold_left (fun t phrase => sub IGNORECASE phrase "" t)
                admin_phrases clean_para in
    let temp_text := Py.strip (collapse_ws temp_text) in
    if 80 <? Py.len temp_text then false else false
  else false.

(** *** [split_by_clear_boundaries] *)

(** (?<=\.)\s*\n(?=[A-Z][a-zA-Z\s,&]+ (meeting times? were asked by|was asked by|asked by|stated by)) *)
Definition speaker_pattern : regex :=
  seq [LookBehind (Lit "."); star ws; Atom (Lit Py.LF);
       LookAhead
         (seq [Atom upper_az;
               plus (OneOf [Range "a" "z"; Range "A" "Z"; Space; Chr ",";
                            Chr "&"]);
               lit " ";
               Group 1 (alt [seq [lit "meeting time"; opt (Lit "s");
                                  lit " were asked by"];
                             lit "was asked by"; lit "asked by";
                             lit "stated by"])])].

(** (?<=\.)\s*\n(?=Per [A-Z][a-zA-Z\s,]+,) *)
Definition per_pattern : regex :=
  seq [LookBehind (Lit "."); star ws; Atom (Lit Py.LF);
       LookAhead
         (seq [lit "Per "; Atom upper_az;
               plus (OneOf [Range "a" "z"; Range "A" "Z"; Space; Chr ","]);
               lit ","])].

(** The list [split_points] before sorting: [match.end() - 1] for every
    match of either pattern. *)
Definition split_points (paragraph : string) : list nat :=
  concat (map (fun pat => map (fun m => (m_end m - 1)%nat)
                              (finditer NOFLAGS pat paragraph))
              [speaker_pattern; per_pattern]).

(** [[s] if s else []] *)
Definition singleton_if_nonempty (s : string) : list string :=
  match s with "" => [] | _ => [s] end.

(** The loop over the boundaries: the comments collected and the final
    value of [start]. *)
Fixpoint cut_at (paragraph : string) (start : nat) (boundaries : list nat)
    : list string * nat :=
  match boundaries with
  | [] => ([], start)
  | boundary :: bs =>
      let here :=
        if (start <? boundary)%nat then
          let comment := Py.strip (Py.slice start boundary paragraph) in
          if 30 <? Py.len comment then [comment] else []
        else [] in
      let '(later, final) := cut_at paragraph boundary bs in
      ((here ++ later)%list, final)
  end.

Definition split_by_clear_boundaries (paragraph : string) : list string :=
  match split_points paragraph with
  | [] => singleton_if_nonempty (Py.strip paragraph)
  | points =>
      let points := merge_sort Nat.le (remove_dups points) in
      let '(comments, start) := cut_at paragraph 0 points in
      let comments :=
        if (start <? String.length paragraph)%nat then
          let final_comment := Py.strip (Py.drop start paragraph) in
          if 30 <? Py.len final_comment then (comments ++ [final_comment])%list
          else comments
        else comments in
      match comments with
      | [] => singleton_if_nonempty (Py.strip paragraph)
      | _ => comments
      end
  end.

(** *** [count_public_comments] *)

(** \n\s*\n|\r\n\s*\r\n *)
Definition paragraph_break : regex :=
  alt [seq [Atom (Lit Py.LF); star ws; Atom (Lit Py.LF)];
       seq [Atom (Lit Py.CR); Atom (Lit Py.LF); star ws;
            Atom (Lit Py.CR); Atom (Lit Py.LF)]].

(** ^\s*(page \d+|continued|end)\s*$ *)
Definition page_marker : regex :=
  seq [Bos; star ws;
       Group 1 (alt [seq [lit "page "; plus d]; lit "continued"; lit "end"]);
       star ws; Eos].

Definition paragraphs (open_forum_text : string) : list string :=
  split NOFLAGS paragraph_break open_forum_text.

(** The condition guarding one paragraph of the loop ([para] is already
    stripped). *)
Definition is_valid_paragraph (para : string) : bool :=
  (20 <? Py.len para)
  && negb (bool_decide (is_Some (match_ IGNORECASE page_marker para)))
  && negb (is_admin_paragraph para).

(** The body of the paragraph loop: what it appends to [valid_paragraphs]. *)
Definition topic_parts (para : string) : list string :=
  let para := Py.strip para in
  if is_valid_paragraph para then split_by_clear_boundaries para else [].

Definition count_public_comments (open_forum_text : string) : Z :=
  if String.eqb open_forum_text "" || has_no_comments open_forum_text then 0
  else if is_only_admin_content open_forum_text then 0
  else
    let valid_paragraphs := concat (map topic_parts (paragraphs open_forum_text)) in
    Z.of_nat (length valid_paragraphs).

(** *** The run: files, folders and statistics *)

(** [self.processing_stats] *)
Module Stats.
Record t : Type :=
  Make { total_files : Z; processed_files : Z; skipped_files : Z;
         total_comments : Z }.
End Stats.

(** The [stats] dictionary of one academic year. *)
Module YearStats.
Record t : Type :=
  Make { total_meetings : Z; meetings_with_comments : Z;
         meetings_no_comments : Z; meetings_no_open_forum : Z;
         total_comments : Z }.
End YearStats.

(** The attributes of an [AIMinutesAgent]; [meeting_stats] exists only
    once [process_folder] has set it. *)
Record agent : Type :=
  Agent { debug_mode : bool;
          skipped_files : list (string * string);
          processing_stats : Stats.t;
          meeting_stats : option (gmap string YearStats.t) }.

(** [AIMinutesAgent(debug_mode)] *)
Definition AIMinutesAgent (debug_mode : bool) : agent :=
  Agent debug_mode [] (Stats.Make 0 0 0 0) None.

Definition set_stats (self : agent) (stats : Stats.t) : agent :=
  Agent (debug_mode self) (skipped_files self) stats (meeting_stats self).

(** [self.skipped_files.append((filename, reason))] *)
Definition skip (self : agent) (filename reason : string) : agent :=
  Agent (debug_mode self) (skipped_files self ++ [(filename, reason)])
        (processing_stats self) (meeting_stats self).

(** A file on disk as the agent sees it: its base name and what PyMuPDF
    makes of it, the text of each page, or [None] when opening or reading
    it raises. *)
Record file : Type := File { basename : string; pages : option (list string) }.

Definition extract_text_from_pdf (pdf : file) : string :=
  match pages pdf with
  | Some page_texts => String.concat "" page_texts
  | None => ""
  end.

Definition process_single_pdf (self : agent) (pdf : file)
    : agent * (string * option Z) :=
  let filename := basename pdf in
  let date := extract_date_from_filename filename in
  let text := extract_text_from_pdf pdf in
  if String.eqb text "" then
    (skip self filename "Failed to extract text", (date, None))
  else
    match extract_open_forum_section text with
    | None | Some "" =>
        (skip self filename "No Open Forum section found", (date, None))
    | Some open_forum_text =>
        let comment_count := count_public_comments open_forum_text in
        if comment_count =? 0 then
          (skip self filename "No comments or 'no comment' marker found",
           (date, None))
        else (self, (date, Some comment_count))
    end.

(** [file.lower().endswith('.pdf')] *)
Definition is_pdf (f : file) : bool := Py.endswith ".pdf" (Py.lower (basename f)).

(** The loop of [process_single_year_folder] over one file. *)
Definition process_one (acc : agent * gmap string Z) (pdf : file)
    : agent * gmap string Z :=
  let '(self, comment_count_map) := acc in
  let '(self, (date, comment_count)) := process_single_pdf self pdf in
  let stats := processing_stats self in
  match comment_count with
  | Some comment_count =>
      (set_stats self
         (Stats.Make (Stats.total_files stats)
                     (Stats.processed_files stats + 1)
                     (Stats.skipped_files stats)
                     (Stats.total_comments stats + comment_count)),
       <[date := comment_count]> comment_count_map)
  | None =>
      (set_stats self
         (Stats.Make (Stats.total_files stats)
                     (Stats.processed_files stats)
                     (Stats.skipped_files stats + 1)
                     (Stats.total_comments stats)),
       comment_count_map)
  end.

(** [walk] is every file [os.walk] finds below the folder, in its order. *)
Definition process_single_year_folder (self : agent) (walk : list file)
    : agent * gmap string Z :=
  let pdf_files := filter is_pdf walk in
  fold_left process_one pdf_files (self, ∅).

(** The loop of [process_single_year_folder_with_stats] over one file; the
    year's counters travel with the map. *)
Definition process_one_with_stats
    (acc : agent * gmap string Z * YearStats.t) (pdf : file)
    : agent * gmap string Z * YearStats.t :=
  let '(self, comment_count_map, year) := acc in
  let filename := basename pdf in
  let date := extract_date_from_filename filename in
  let text := extract_text_from_pdf pdf in
  let no_open_forum :=
    (self, comment_count_map,
     YearStats.Make (YearStats.total_meetings year)
                    (YearStats.meetings_with_comments year)
                    (YearStats.meetings_no_comments year)
                    (YearStats.meetings_no_open_forum year + 1)
                    (YearStats.total_comments year)) in
  if String.eqb text "" then no_open_forum
  else
    match extract_open_forum_section text with
    | None | Some "" => no_open_forum
    | Some open_forum_text =>
        let comment_count := count_public_comments open_forum_text in
        let stats := processing_stats self in
        if 0 <? comment_count then
          (set_stats self
             (Stats.Make (Stats.total_files stats)
                         (Stats.processed_files stats + 1)
                         (Stats.skipped_files stats)
                         (Stats.total_comments stats + comment_count)),
           <[date := comment_count]> comment_count_map,
           YearStats.Make (YearStats.total_meetings year)
                          (YearStats.meetings_with_comments year + 1)
                          (YearStats.meetings_no_comments year)
                          (YearStats.meetings_no_open_forum year)
                          (YearStats.total_comments year + comment_count))
        else
          (set_stats self
             (Stats.Make (Stats.total_files stats)
                         (Stats.processed_files stats)
                         (Stats.skipped_files stats + 1)
                         (Stats.total_comments stats)),
           comment_count_map,
           YearStats.Make (YearStats.total_meetings year)
                          (YearStats.meetings_with_comments year)
                          (YearStats.meetings_no_comments year + 1)
                          (YearStats.meetings_no_open_forum year)
                          (YearStats.total_comments year))
    end.

Definition process_single_year_folder_with_stats (self : agent)
    (walk : list file) : agent * gmap string Z * YearStats.t :=
  let pdf_files := filter is_pdf walk in
  let total_meetings := Z.of_nat (length pdf_files) in
  fold_left process_one_with_stats pdf_files
            (self, ∅, YearStats.Make total_meetings 0 0 0 0).

(** An entry of [os.listdir(folder_path)]: a plain file, or a directory
    with what [os.walk] finds below its [Minutes] and [Minute] entries
    ([None] when the entry does not exist). *)
Inductive entry : Type :=
| PlainFile
| Directory (Minutes Minute : option (list file)).

(** The input folder: whether the path exists, its listing, and every file
    [os.walk] finds below it. *)
Record folder : Type :=
  Folder { present : bool;
           listing : list (string * entry);
           walk : list file }.

(** \d{4}-\d{4} *)
Definition year_pattern : regex := seq [times d 4 4; lit "-"; times d 4 4].

(** The directories of the listing named like an academic year, with the
    file walk of their [Minutes] (else [Minute]) folder. *)
Definition yearly_folders (root : folder)
    : list (string * option (list file)) :=
  omap (fun item =>
          match item.2 with
          | Directory Minutes Minute =>
              if bool_decide (is_Some (match_ NOFLAGS year_pattern item.1))
              then Some (item.1,
                         match Minutes with
                         | Some w => Some w
                         | None => Minute
                         end)
              else None
          | PlainFile => None
          end)
       (listing root).

(** The state of the loop over the years: the agent, [yearly_results] and
    [total_pdf_files]. *)
Definition process_year
    (acc : agent * gmap string (gmap string Z) * Z)
    (year : string * option (list file))
    : agent * gmap string (gmap string Z) * Z :=
  let '(self, yearly_results, total_pdf_files) := acc in
  let '(year_name, minutes) := year in
  match minutes with
  | None => acc
  | Some minutes_walk =>
      let '(self, year_results, year_stats) :=
        process_single_year_folder_with_stats self minutes_walk in
      (Agent (debug_mode self) (skipped_files self) (processing_stats self)
             (Some (<[year_name := year_stats]>
                      (default ∅ (meeting_stats self)))),
       <[year_name := year_results]> yearly_results,
       total_pdf_files + YearStats.total_meetings year_stats)
  end.

(** [None] stands for the [FileNotFoundError]. *)
Definition process_folder (self : agent) (root : folder)
    : option (agent * gmap string (gmap string Z)) :=
  if negb (present root) then None
  else
    let self := Agent (debug_mode self) (skipped_files self)
                      (processing_stats self) (Some ∅) in
    let years :=
      merge_sort (fun a b => String.le a.1 b.1) (yearly_folders root) in
    match years with
    | [] =>
        let '(self, results) := process_single_year_folder self (walk root) in
        Some (self, {["All Files" := results]})
    | _ =>
        let '(self, yearly_results, total_pdf_files) :=
          fold_left process_year years (self, ∅, 0) in
        let stats := processing_stats self in
        Some (set_stats self
                (Stats.Make total_pdf_files
                            (Stats.processed_files stats)
                            (Stats.skipped_files stats)
                            (Stats.total_comments stats)),
              yearly_results)
    end.

(** *** [export_to_csv] *)

(** [sorted(d.keys())] *)
Definition sorted_keys {V} (d : gmap string V) : list string :=
  merge_sort String.le (map fst (map_to_list d)).

(** [sorted(d.items(), key=lambda x: x[0])] *)
Definition sorted_items {V} (d : gmap string V) : list (string * V) :=
  merge_sort (fun a b => String.le a.1 b.1) (map_to_list d).

(** The rows after the header, in the order they are written. *)
Definition export_rows (yearly_data : gmap string (gmap string Z))
    : list (list string) :=
  concat
    (map (fun year =>
            let year_data := default ∅ (yearly_data !! year) in
            map (fun '(date, count) => [year; date; Py.str count])
                (sorted_items year_data))
         (sorted_keys yearly_data)).

(** The content of the file [export_to_csv] writes. *)
Definition export_to_csv (yearly_data : gmap string (gmap string Z)) : string :=
  String.concat ""
    (map Csv.writerow
         (["Academic_Year"; "Date"; "Comment_Count"] :: export_rows yearly_data)).

End Agent.

(* ===================================================================== *)
(** ** Properties *)
(* ===================================================================== *)

Import Agent.

(** *** Vocabulary of the statements *)

(** ^\d{2}\.\d{2}\.\d{4}$ *)
Definition date_format : Re.regex :=
  Re.seq [Re.Bos; Re.times Re.d 2 2; Re.lit "."; Re.times Re.d 2 2; Re.lit ".";
          Re.times Re.d 4 4; Re.Eos].

Definition matches_date_format (s : string) : bool :=
  bool_decide (is_Some (Re.match_ Re.NOFLAGS date_format s)).

(** A zero-padded MM.DD.YYYY date whose year lies in 1990..2030. *)
Definition is_date (s : string) : Prop :=
  exists month day year,
    1 <= month <= 12 /\ 1 <= day <= 31 /\ 1990 <= year <= 2030 /\
    s = format_date month day year /\ matches_date_format s = true.

Definition open_forum_example : string :=
  "V. Open Forum" ++ Py.nl ++ "John asked about parking." ++ Py.nl
  ++ "VI. Discussion Items" ++ Py.nl ++ "...".

(** "page 3" followed by a hundred spaces. *)
Definition padded_page_marker : string :=
  "page 3" ++ String.concat "" (repeat " " 100).

(** A paragraph of 112 characters made of page markers only. *)
Definition boilerplate_paragraph : string :=
  String.concat " " (repeat "page 12" 14).

(** A string that does not begin with whitespace. *)
Definition starts_clean (s : string) : Prop :=
  match s with "" => True | String c _ => Py.isspace c = false end.

(** A paragraph that passes the filter of the paragraph loop (more than 20
    characters once stripped, no page marker, not administrative) and in
    which neither speaker-boundary pattern matches. *)
Definition plain_paragraph (para : string) : Prop :=
  is_valid_paragraph (Py.strip para) = true
  /\ split_points (Py.strip para) = [].

Definition none_liked : string :=
  "None of the students liked the new parking policy.".
Definition revisit_fees : string :=
  "The committee should revisit the fee schedule soon.".
Definition residents_spending : string :=
  "Residents identified spending trends".
Definition friends_weekend : string :=
  "Friends attended weekend candidates".

Definition liked_parking : string :=
  "Several students liked the new parking policy.".

(** What [process_single_pdf] answers for a file does not depend on the
    agent. *)
Definition outcome_of (pdf : file) : string * option Z :=
  (process_single_pdf (AIMinutesAgent false) pdf).2.

(** The files of a list the agent counts ([Some]) and skips ([None]). *)
Definition counted (pdfs : list file) : list Z :=
  omap (fun pdf => (outcome_of pdf).2) pdfs.

Definition sum (l : list Z) : Z := fold_right Z.add 0 l.

Definition parking_minutes : file :=
  File "Minutes 1.2.21 draft.pdf"
       (Some ["V. Open Forum" ++ Py.nl
              ++ "John asked about the parking fees and the schedule." ++ Py.nl
              ++ "VI. Discussion Items"]).

Definition unreadable_minutes : file := File "minutes_03152023.PDF" None.

Definition flat_folder : folder :=
  Folder true [("misc", Directory (Some [parking_minutes]) None)]
         [parking_minutes; unreadable_minutes].

Definition no_section_minutes : file :=
  File "March 5 2020 notes.pdf" (Some ["Budget review only."]).

Definition no_comment_minutes : file :=
  File "minutes 4.5.2021.pdf"
       (Some ["V. Open Forum" ++ Py.nl ++ "No public comment this meeting."
              ++ Py.nl ++ "VI. Discussion Items"]).

(** One academic year whose Minutes folder holds an unreadable file, a
    file without an Open Forum section and a file without comments. *)
Definition yearly_folder : folder :=
  Folder true
    [("2022-2023",
      Directory (Some [unreadable_minutes; no_section_minutes;
                       no_comment_minutes]) None)]
    [unreadable_minutes; no_section_minutes; no_comment_minutes].

(** [last_char prev s]: the character before the position reached after
    reading [s] from a position whose previous character is [prev]. *)
Fixpoint last_char (prev : option ascii) (s : string) : option ascii :=
  match s with
  | "" => prev
  | String c s' => last_char (Some c) s'
  end.

(** Where [$] matches: at the end, or before a last line feed. *)
Definition at_end (s : string) : bool :=
  match s with
  | "" => true
  | String c "" => Ascii.eqb c Py.LF
  | _ => false
  end.

(** [matches fl r c0 c1]: the pattern [r] has a way of matching from [c0]
    up to [c1], whatever the order in which Python tries the ways. *)
Inductive matches (fl : Re.flags) : Re.regex -> Re.cursor -> Re.cursor -> Prop :=
| M_Empty cur : matches fl Re.Empty cur cur
| M_Atom a prev c s :
    Re.atom_match fl a c = true ->
    matches fl (Re.Atom a) (Re.Cursor prev (String c s)) (Re.Cursor (Some c) s)
| M_Seq r1 r2 c0 c1 c2 :
    matches fl r1 c0 c1 -> matches fl r2 c1 c2 -> matches fl (Re.Seq r1 r2) c0 c2
| M_OrL r1 r2 c0 c1 : matches fl r1 c0 c1 -> matches fl (Re.Or r1 r2) c0 c1
| M_OrR r1 r2 c0 c1 : matches fl r2 c0 c1 -> matches fl (Re.Or r1 r2) c0 c1
| M_Stop a hi greedy cur : matches fl (Re.Repeat a 0 hi greedy) cur cur
| M_More a lo hi greedy prev c s c1 :
    Re.room hi = true -> Re.atom_match fl a c = true ->
    matches fl (Re.Repeat a (Nat.pred lo) (Re.less hi) greedy)
            (Re.Cursor (Some c) s) c1 ->
    matches fl (Re.Repeat a lo hi greedy) (Re.Cursor prev (String c s)) c1
| M_Group n r c0 c1 : matches fl r c0 c1 -> matches fl (Re.Group n r) c0 c1
| M_Ahead r c0 c1 : matches fl r c0 c1 -> matches fl (Re.LookAhead r) c0 c0
| M_Behind a c s :
    Re.atom_match fl a c = true ->
    matches fl (Re.LookBehind a) (Re.Cursor (Some c) s) (Re.Cursor (Some c) s)
| M_Bos s : matches fl Re.Bos (Re.Cursor None s) (Re.Cursor None s)
| M_Eos cur : at_end (Re.rest cur) = true -> matches fl Re.Eos cur cur
| M_EndAbs prev : matches fl Re.EndAbs (Re.Cursor prev "") (Re.Cursor prev "")
| M_Boundary cur :
    xorb (Re.word_before cur) (Re.word_after cur) = true ->
    matches fl Re.Boundary cur cur.

(** [r] can match somewhere in [text]. *)
Definition occurs (fl : Re.flags) (r : Re.regex) (text : string) : Prop :=
  exists pre rest c1,
    text = pre ++ rest /\ matches fl r (Re.Cursor (last_char None pre) rest) c1.

Definition ends_with_word (s : string) : bool :=
  match last_char None s with Some c => Py.isword c | None => false end.

Definition starts_with_word (s : string) : bool :=
  match s with String c _ => Py.isword c | "" => false end.

(** The position between [left] and [right] is a word boundary ([\b]). *)
Definition boundary_at (left right : string) : bool :=
  xorb (ends_with_word left) (starts_with_word right).

(** [phrase] occurs in [text], in any letter case, between two word
    boundaries. *)
Definition occurs_word_bounded (phrase text : string) : Prop :=
  exists pre mid post,
    text = pre ++ mid ++ post /\ Py.lower mid = phrase
    /\ boundary_at pre (mid ++ post) = true
    /\ boundary_at (pre ++ mid) post = true.

(** The phrases of the first three patterns of [has_no_comments]. *)
Definition no_comment_phrases : list string :=
  ["no open forum"; "no comment"; "no comments"; "none"; "n/a"; "na";
   "not applicable"; "no public comment"; "no discussion"; "no speaker";
   "no speakers"; "no one spoke"; "no attendees"; "no participants"].

Definition long_comment_with_phrase : string :=
  "John Smith asked at length why the parking fees went up this year. "
  ++ "There were NO Comments from the board. "
  ++ "Mary Jones stated that the shuttle schedule should be extended.".

(** What the reader does at the end of a field: on a comma it saves the
    field, on a carriage return it also ends the record. *)
Definition close (c : ascii) (r : Csv.reader) : Csv.reader :=
  if Ascii.eqb c Csv.COMMA then Csv.save_field Csv.START_FIELD r
  else Csv.end_line c (Csv.save_field Csv.START_FIELD r).

Definition terminator (c : ascii) : Prop := c = Csv.COMMA \/ c = Py.CR.

(** A row of at least two fields. *)
Definition wide (row : list string) : Prop :=
  exists f1 f2 fs, row = f1 :: f2 :: fs.

Definition header : list string := ["Academic_Year"; "Date"; "Comment_Count"].

(** The (year, date, count) triples of a mapping, years in order and,
    within a year, dates in order. *)
Definition triples (yearly_data : gmap string (gmap string Z))
    : list (string * string * Z) :=
  concat
    (map (fun year =>
            map (fun item : string * Z => (year, item.1, item.2))
                (sorted_items (default ∅ (yearly_data !! year))))
         (sorted_keys yearly_data)).

Definition row_of (t : string * string * Z) : list string :=
  [t.1.1; t.1.2; Py.str t.2].

(** One record of the file back to a triple, the count through [int]. *)
Definition parse_row (fields : list string) : option (string * string * Z) :=
  match fields with
  | [year; date; count] =>
      option_map (fun n => (year, date, n)) (Py.int count)
  | _ => None
  end.

(** Reading the file back: the header, then one triple per record. *)
Definition reparse (text : string) : option (list (string * string * Z)) :=
  match Csv.read text with
  | first :: rows =>
      if decide (first = header) then mapM parse_row rows else None
  | [] => None
  end.

(** Strictly before, in Python's order on strings. *)
Definition str_lt (a b : string) : Prop := String.le a b /\ a <> b.

(** Ordered by year, then by date. *)
Definition triple_lt (t1 t2 : string * string * Z) : Prop :=
  str_lt t1.1.1 t2.1.1 \/ (t1.1.1 = t2.1.1 /\ str_lt t1.1.2 t2.1.2).

(** [always_sets n r]: group [n] takes part in every match of [r]. *)
Fixpoint always_sets (n : nat) (r : Re.regex) : bool :=
  match r with
  | Re.Seq r1 r2 => always_sets n r1 || always_sets n r2
  | Re.Or r1 r2 => always_sets n r1 && always_sets n r2
  | Re.Group m r1 => Nat.eqb m n || always_sets n r1
  | Re.LookAhead r1 => always_sets n r1
  | _ => false
  end.

(** *** Loops with an early exit *)

Lemma first_some_elim {A B} (f : A -> option B) (l : list A) (y : B) :
  first_some f l = Some y -> exists x, In x l /\ f x = Some y.
Proof.
  induction l as [|x l IH]; simpl; [discriminate|].
  destruct (f x) as [y'|] eqn:Hx.
  - intros [= <-]. exists x. auto.
  - intros H. destruct (IH H) as (x' & Hin & Hf). exists x'. auto.
Qed.

Lemma first_some_none {A B} (f : A -> option B) (l : list A) :
  (forall x, In x l -> f x = None) -> first_some f l = None.
Proof.
  induction l as [|x l IH]; simpl; intros H; [reflexivity|].
  rewrite (H x) by auto. apply IH. intros x' Hx'. apply H. auto.
Qed.

(** *** The date extractor *)

Lemma format_date_matches month day year :
  1 <= month <= 12 -> 1 <= day <= 31 -> 1990 <= year <= 2030 ->
  matches_date_format (format_date month day year) = true.
Proof.
  intros Hm Hd Hy.
  assert (Hall :
    forallb (fun m => forallb (fun d0 => forallb (fun y =>
       matches_date_format (format_date m d0 y)) (seqZ 1990 41)) (seqZ 1 31))
      (seqZ 1 12) = true) by (vm_compute; reflexivity).
  rewrite forallb_forall in Hall.
  specialize (Hall month). rewrite forallb_forall in Hall.
  specialize (Hall ltac:(apply list_elem_of_In, elem_of_seqZ; lia) day).
  rewrite forallb_forall in Hall.
  apply (Hall ltac:(apply list_elem_of_In, elem_of_seqZ; lia) year).
  apply list_elem_of_In, elem_of_seqZ; lia.
Qed.

Lemma check_candidate_is_date candidate date :
  check_candidate candidate = Some date -> is_date date.
Proof.
  destruct candidate as [[g1 g2] g3]. unfold check_candidate.
  destruct (read_candidate g1 g2 g3) as [[[year month] day]|]; simpl;
    [|discriminate].
  set (swap := if (1 <=? month) && (month <=? 12) then Some (month, day)
               else if (1 <=? day) && (day <=? 12) then Some (day, month)
               else None).
  assert (Hswap : forall m' d', swap = Some (m', d') -> 1 <= m' <= 12).
  { subst swap. intros m' d'.
    destruct ((1 <=? month) && (month <=? 12)) eqn:E1.
    - intros [= <- <-]. lia.
    - destruct ((1 <=? day) && (day <=? 12)) eqn:E2; [|discriminate].
      intros [= <- <-]. lia. }
  destruct swap as [[m' d']|]; simpl; [|discriminate].
  specialize (Hswap m' d' eq_refl).
  destruct ((1 <=? d') && (d' <=? 31)) eqn:Ed; simpl; [|discriminate].
  destruct ((1990 <=? year) && (year <=? 2030)) eqn:Ey; simpl; [|discriminate].
  destruct (valid_date year m' d'); simpl; [|discriminate].
  intros [= <-]. exists m', d', year.
  assert (1 <= d' <= 31) by lia. assert (1990 <= year <= 2030) by lia.
  repeat split; try lia. by apply format_date_matches.
Qed.

Lemma month_patterns_range pattern month :
  In (pattern, month) month_patterns -> 1 <= month <= 12.
Proof.
  unfold month_patterns. simpl.
  intros H. repeat (destruct H as [[= <- <-]|H]; [lia|]). destruct H.
Qed.

Lemma check_month_is_date filename_lower entry date :
  In entry month_patterns ->
  check_month filename_lower entry = Some date -> is_date date.
Proof.
  destruct entry as [pattern month]. intros Hin%month_patterns_range.
  unfold check_month.
  destruct (Re.search Re.NOFLAGS pattern filename_lower) as [m|]; simpl;
    [|discriminate].
  destruct (Py.int (default "" (Re.group 2 (Re.m_caps m)))) as [day|]; simpl;
    [|discriminate].
  destruct (Py.int (default "" (Re.group 3 (Re.m_caps m)))) as [year|]; simpl;
    [|discriminate].
  set (year' := if Py.len _ =? 2 then expand_year year else year).
  destruct ((1 <=? day) && (day <=? 31) && (1990 <=? year') && (year' <=? 2030))
    eqn:E; [|discriminate].
  intros [= <-]. exists month, day, year'.
  assert (1 <= day <= 31) by lia. assert (1990 <= year' <= 2030) by lia.
  repeat split; try lia. by apply format_date_matches.
Qed.

(** C1. The date extractor is a total function of the filename: whatever
    the filename, the result is either the sentinel "Unknown Date" or a
    zero-padded MM.DD.YYYY string with its year in 1990..2030, which
    matches ^\d{2}\.\d{2}\.\d{4}$. A [ValueError] inside either loop only
    moves on to the next candidate, so no input makes the function fail. *)
Theorem extract_date_total (filename : string) :
  extract_date_from_filename filename = "Unknown Date"
  \/ is_date (extract_date_from_filename filename).
Proof.
  unfold extract_date_from_filename.
  destruct (first_some check_candidate (candidates filename)) as [date|] eqn:E1.
  - right. apply first_some_elim in E1 as (c & _ & Hc).
    by apply check_candidate_is_date in Hc.
  - destruct (first_some (check_month (Py.lower filename)) month_patterns)
      as [date|] eqn:E2.
    + right. apply first_some_elim in E2 as (e & Hin & He).
      by apply check_month_is_date in He.
    + by left.
Qed.

(** C5. The four test vectors of the date extractor: a separated date with
    a two-digit year, a compact eight-digit run read as MMDDYYYY, a month
    name (no numeric candidate validates, the month-name loop answers),
    and a name without any date. *)
Theorem extract_date_vectors :
  extract_date_from_filename "Minutes 1.2.21 draft.pdf" = "01.02.2021"
  /\ extract_date_from_filename "minutes_03152023.pdf" = "03.15.2023"
  /\ hd_error (candidates "minutes_03152023.pdf") = Some ("03", "15", "2023")
  /\ extract_date_from_filename "March 5 2020 notes.pdf" = "03.05.2020"
  /\ first_some check_candidate (candidates "March 5 2020 notes.pdf") = None
  /\ extract_date_from_filename "no_date_here.pdf" = "Unknown Date".
Proof. repeat split; vm_compute; reflexivity. Qed.

(** *** The classifier gates of the comment count *)

(** C2. Whenever [has_no_comments] or [is_only_admin_content] holds of a
    span, the comment count of that span is 0; and the count of
    "No public comment this meeting." is 0. *)
Theorem count_zero_when_empty_or_admin :
  (forall span,
     has_no_comments span = true \/ is_only_admin_content span = true ->
     count_public_comments span = 0)
  /\ count_public_comments "No public comment this meeting." = 0.
Proof.
  split; [|vm_compute; reflexivity].
  intros span [H|H]; unfold count_public_comments; rewrite H.
  - by rewrite orb_true_r.
  - by destruct (_ || _).
Qed.

Lemma count_zero_when_empty_or_admin_witness :
  has_no_comments "No public comment this meeting." = true
  /\ count_public_comments "No public comment this meeting." = 0.
Proof.
  assert (H : has_no_comments "No public comment this meeting." = true)
    by (vm_compute; reflexivity).
  split; [exact H|].
  apply (proj1 count_zero_when_empty_or_admin). left. exact H.
Defined.

(** *** The per-paragraph administrative check *)

Lemma len_lower s : Py.len (Py.lower s) = Py.len s.
Proof.
  unfold Py.len. f_equal. induction s as [|c s IH]; simpl; congruence.
Qed.

Lemma is_admin_paragraph_from_50 paragraph :
  50 <= Py.len (Py.strip paragraph) -> is_admin_paragraph paragraph = false.
Proof.
  intros H. unfold is_admin_paragraph. rewrite len_lower.
  replace (Py.len (Py.strip paragraph) <? 50) with false by lia. simpl.
  destruct (100 <? Py.len (Py.strip paragraph)); [|reflexivity].
  by destruct (80 <? _).
Qed.

(** C6, as stated, fails: a paragraph of 106 characters that is "page 3"
    padded with spaces is administrative, because the check measures the
    text after [strip]. *)
Lemma is_admin_paragraph_long_counterexample :
  ~ (forall paragraph,
       100 < Py.len paragraph -> is_admin_paragraph paragraph = false).
Proof.
  intros H. specialize (H padded_page_marker).
  assert (Hlen : 100 < Py.len padded_page_marker) by (vm_compute; reflexivity).
  specialize (H Hlen). vm_compute in H. discriminate.
Qed.

(** C6, amended. For every paragraph whose text, once stripped of leading
    and trailing whitespace, is longer than 100 characters,
    [is_admin_paragraph] returns false: in particular for the paragraphs
    [count_public_comments] passes, which are already stripped. *)
Theorem is_admin_paragraph_long (paragraph : string) :
  100 < Py.len (Py.strip paragraph) -> is_admin_paragraph paragraph = false.
Proof. intros H. apply is_admin_paragraph_from_50. lia. Qed.

Lemma is_admin_paragraph_long_witness :
  100 < Py.len (Py.strip boilerplate_paragraph)
  /\ is_admin_paragraph boilerplate_paragraph = false.
Proof.
  assert (H : 100 < Py.len (Py.strip boilerplate_paragraph))
    by (vm_compute; reflexivity).
  split; [exact H|]. apply (is_admin_paragraph_long _ H).
Defined.

(** *** Two plain paragraphs *)

Lemma rstrip_idem s : Py.rstrip (Py.rstrip s) = Py.rstrip s.
Proof.
  induction s as [|c s IH]; simpl; [reflexivity|].
  destruct (Py.rstrip s) as [|c' r] eqn:E.
  - destruct (Py.isspace c) eqn:Ec; simpl; [reflexivity|]. by rewrite Ec.
  - change (Py.rstrip (String c (String c' r)))
      with (match Py.rstrip (String c' r) with
            | "" => if Py.isspace c then "" else String c ""
            | r0 => String c r0
            end).
    by rewrite IH.
Qed.

Lemma lstrip_starts_clean s : starts_clean (Py.lstrip s).
Proof.
  induction s as [|c s IH]; simpl; [exact I|].
  destruct (Py.isspace c) eqn:Ec; [exact IH|exact Ec].
Qed.

Lemma rstrip_starts_clean s : starts_clean s -> starts_clean (Py.rstrip s).
Proof.
  destruct s as [|c s]; simpl; [done|]. intros Hc.
  destruct (Py.rstrip s); [by rewrite Hc|done].
Qed.

Lemma lstrip_clean s : starts_clean s -> Py.lstrip s = s.
Proof. destruct s as [|c s]; simpl; [done|]. by intros ->. Qed.

Lemma strip_idem s : Py.strip (Py.strip s) = Py.strip s.
Proof.
  unfold Py.strip.
  rewrite (lstrip_clean (Py.rstrip (Py.lstrip s))).
  - apply rstrip_idem.
  - apply rstrip_starts_clean, lstrip_starts_clean.
Qed.

Lemma topic_parts_plain para :
  plain_paragraph para -> topic_parts para = [Py.strip para].
Proof.
  intros [Hvalid Hpoints]. unfold topic_parts. rewrite Hvalid.
  unfold split_by_clear_boundaries. rewrite Hpoints, strip_idem.
  unfold is_valid_paragraph in Hvalid.
  destruct (Py.strip para); [|reflexivity].
  vm_compute in Hvalid. discriminate.
Qed.

(** C4, as stated, fails. Two plain paragraphs separated by a blank line
    count 0 when the word "none" occurs in one of them (the explicit
    no-comments gate), and also when fewer than three of their words are
    free of the substrings "id", "end", "page" (the administrative gate). *)
Lemma count_two_paragraphs_counterexample :
  ~ (forall p1 p2,
       paragraphs (p1 ++ Py.nl ++ Py.nl ++ p2) = [p1; p2] ->
       plain_paragraph p1 -> plain_paragraph p2 ->
       count_public_comments (p1 ++ Py.nl ++ Py.nl ++ p2) = 2)
  /\ paragraphs (residents_spending ++ Py.nl ++ Py.nl ++ friends_weekend)
     = [residents_spending; friends_weekend]
  /\ plain_paragraph residents_spending /\ plain_paragraph friends_weekend
  /\ has_no_comments (residents_spending ++ Py.nl ++ Py.nl ++ friends_weekend)
     = false
  /\ count_public_comments
       (residents_spending ++ Py.nl ++ Py.nl ++ friends_weekend) = 0.
Proof.
  split.
  - intros H. specialize (H none_liked revisit_fees).
    assert (count_public_comments
              (none_liked ++ Py.nl ++ Py.nl ++ revisit_fees) = 0) as Hc
      by (vm_compute; reflexivity).
    rewrite Hc in H. discriminate H.
    + vm_compute; reflexivity.
    + split; vm_compute; reflexivity.
    + split; vm_compute; reflexivity.
  - repeat split; vm_compute; reflexivity.
Qed.

(** C4, amended. For every input that splits into exactly two paragraphs,
    each longer than 20 characters once stripped, non-administrative and
    without a speaker-boundary phrase, and on which neither
    [has_no_comments] nor [is_only_admin_content] holds,
    [count_public_comments] returns 2. *)
Theorem count_two_paragraphs (text p1 p2 : string) :
  paragraphs text = [p1; p2] ->
  plain_paragraph p1 -> plain_paragraph p2 ->
  has_no_comments text = false ->
  is_only_admin_content text = false ->
  count_public_comments text = 2.
Proof.
  intros Hsplit H1 H2 Hno Hadmin. unfold count_public_comments.
  rewrite Hno, Hadmin, Hsplit.
  destruct (String.eqb_spec text "") as [->|_]; [vm_compute in Hsplit; discriminate|].
  simpl. by rewrite (topic_parts_plain _ H1), (topic_parts_plain _ H2).
Qed.

Lemma count_two_paragraphs_witness :
  paragraphs (liked_parking ++ Py.nl ++ Py.nl ++ revisit_fees)
  = [liked_parking; revisit_fees]
  /\ count_public_comments (liked_parking ++ Py.nl ++ Py.nl ++ revisit_fees) = 2.
Proof.
  assert (Hs : paragraphs (liked_parking ++ Py.nl ++ Py.nl ++ revisit_fees)
               = [liked_parking; revisit_fees]) by (vm_compute; reflexivity).
  split; [exact Hs|].
  apply (count_two_paragraphs _ _ _ Hs).
  - split; vm_compute; reflexivity.
  - split; vm_compute; reflexivity.
  - vm_compute; reflexivity.
  - vm_compute; reflexivity.
Defined.

(** *** The run over a folder *)

Lemma fold_left_invariant {A B} (P : A -> Prop) (f : A -> B -> A) l a :
  P a -> (forall a x, P a -> P (f a x)) -> P (fold_left f l a).
Proof.
  intros Ha Hstep. revert a Ha.
  induction l as [|x l IH]; simpl; intros a Ha; [exact Ha|].
  apply IH, Hstep, Ha.
Qed.

Lemma process_single_pdf_outcome self pdf :
  (process_single_pdf self pdf).2 = outcome_of pdf.
Proof.
  unfold outcome_of, process_single_pdf.
  destruct (String.eqb _ ""); [reflexivity|].
  destruct (extract_open_forum_section _) as [[|c s]|]; try reflexivity.
  by destruct (_ =? 0).
Qed.

Lemma process_single_pdf_stats self pdf :
  processing_stats (process_single_pdf self pdf).1 = processing_stats self.
Proof.
  unfold process_single_pdf.
  destruct (String.eqb _ ""); [reflexivity|].
  destruct (extract_open_forum_section _) as [[|c s]|]; try reflexivity.
  by destruct (_ =? 0).
Qed.

Lemma process_one_stats self comment_count_map pdf :
  let stats := processing_stats self in
  let stats' := processing_stats (process_one (self, comment_count_map) pdf).1 in
  Stats.total_files stats' = Stats.total_files stats
  /\ Stats.processed_files stats'
     = Stats.processed_files stats + Z.of_nat (length (counted [pdf]))
  /\ Stats.processed_files stats' + Stats.skipped_files stats'
     = Stats.processed_files stats + Stats.skipped_files stats + 1
  /\ Stats.total_comments stats'
     = Stats.total_comments stats + sum (counted [pdf]).
Proof.
  unfold process_one, counted. simpl.
  pose proof (process_single_pdf_outcome self pdf) as Ho.
  pose proof (process_single_pdf_stats self pdf) as Hs.
  destruct (process_single_pdf self pdf) as [self' [date count]].
  simpl in Ho, Hs. rewrite <- Ho. simpl.
  destruct count as [n|]; simpl; rewrite Hs; simpl; lia.
Qed.

Lemma process_files_stats pdfs self comment_count_map :
  let stats := processing_stats self in
  let stats' :=
    processing_stats (fold_left process_one pdfs (self, comment_count_map)).1 in
  Stats.total_files stats' = Stats.total_files stats
  /\ Stats.processed_files stats'
     = Stats.processed_files stats + Z.of_nat (length (counted pdfs))
  /\ Stats.processed_files stats' + Stats.skipped_files stats'
     = Stats.processed_files stats + Stats.skipped_files stats
       + Z.of_nat (length pdfs)
  /\ Stats.total_comments stats'
     = Stats.total_comments stats + sum (counted pdfs).
Proof.
  revert self comment_count_map.
  induction pdfs as [|pdf pdfs IH]; intros self m.
  { unfold counted, sum. simpl. lia. }
  assert (Hc : counted (pdf :: pdfs) = (counted [pdf] ++ counted pdfs)%list).
  { unfold counted. simpl. by destruct (outcome_of pdf).2. }
  assert (Hsum : forall l1 l2, sum (l1 ++ l2)%list = sum l1 + sum l2).
  { intros l1 l2. induction l1 as [|x l1 IHl]; simpl; [reflexivity|].
    unfold sum in *. simpl. rewrite IHl. lia. }
  rewrite Hc, length_app, Hsum.
  change (fold_left process_one (pdf :: pdfs) (self, m))
    with (fold_left process_one pdfs (process_one (self, m) pdf)).
  pose proof (process_one_stats self m pdf) as H1.
  destruct (process_one (self, m) pdf) as [self1 m1] eqn:E1.
  specialize (IH self1 m1). cbv zeta in *.
  change (length (pdf :: pdfs)) with (S (length pdfs)).
  cbn [fst] in H1. lia.
Qed.

(** C10, as stated, fails on a folder without any PDF: the flat fallback
    runs, every counter stays 0, and [total_files] equals
    [processed_files + skipped_files]. *)
Lemma flat_fallback_counterexample :
  ~ (forall root self results,
       yearly_folders root = [] ->
       process_folder (AIMinutesAgent false) root = Some (self, results) ->
       Stats.total_files (processing_stats self)
       <> Stats.processed_files (processing_stats self)
          + Stats.skipped_files (processing_stats self)).
Proof.
  intros H.
  apply (H (Folder true [] []) (Agent false [] (Stats.Make 0 0 0 0) (Some ∅))
           {["All Files" := ∅]}); reflexivity.
Qed.

(** C10, amended. On the flat fallback (no directory of the listing is
    named like an academic year) the result is the single bucket
    "All Files" and [total_files] is left as it was, 0 for a fresh agent,
    while [processed_files] grows by the number of files counted,
    [processed_files + skipped_files] by the number of PDF files, and
    [total_comments] by the comments counted; so [total_files] differs
    from [processed_files + skipped_files] as soon as the folder holds at
    least one PDF file. *)
Theorem flat_fallback_total_files (self : agent) (root : folder) :
  present root = true ->
  yearly_folders root = [] ->
  exists self' results,
    let pdf_files := filter is_pdf (walk root) in
    let stats := processing_stats self in
    let stats' := processing_stats self' in
    process_folder self root = Some (self', {["All Files" := results]})
    /\ Stats.total_files stats' = Stats.total_files stats
    /\ Stats.processed_files stats'
       = Stats.processed_files stats + Z.of_nat (length (counted pdf_files))
    /\ Stats.processed_files stats' + Stats.skipped_files stats'
       = Stats.processed_files stats + Stats.skipped_files stats
         + Z.of_nat (length pdf_files)
    /\ Stats.total_comments stats'
       = Stats.total_comments stats + sum (counted pdf_files)
    /\ (self = AIMinutesAgent (debug_mode self) -> pdf_files <> [] ->
        Stats.total_files stats' = 0
        /\ Stats.total_files stats'
           <> Stats.processed_files stats' + Stats.skipped_files stats').
Proof.
  intros Hpresent Hyears. unfold process_folder.
  rewrite Hpresent, Hyears. simpl.
  unfold process_single_year_folder.
  set (self0 := Agent _ _ _ _).
  pose proof (process_files_stats (filter is_pdf (walk root)) self0 ∅) as H.
  simpl in H.
  destruct (fold_left process_one _ _) as [self' results].
  exists self', results. simpl in *.
  destruct H as (Ht & Hp & Hps & Hc).
  repeat split; try assumption.
  - rewrite H in Ht. exact Ht.
  - rewrite H in Ht, Hps. simpl in Ht, Hps.
    destruct (filter _ (walk root)); [done|].
    change (length (f :: l)) with (S (length l)) in Hps. lia.
Qed.

Lemma flat_fallback_total_files_witness :
  exists self' results,
    process_folder (AIMinutesAgent true) flat_folder
    = Some (self', {["All Files" := results]})
    /\ Stats.total_files (processing_stats self') = 0
    /\ Stats.total_files (processing_stats self')
       <> Stats.processed_files (processing_stats self')
          + Stats.skipped_files (processing_stats self').
Proof.
  destruct (flat_fallback_total_files (AIMinutesAgent true) flat_folder
              eq_refl eq_refl)
    as (self' & results & Hrun & _ & _ & _ & _ & Hfresh).
  exists self', results. split; [exact Hrun|].
  apply Hfresh; [reflexivity|]. vm_compute. discriminate.
Defined.

(** *** Skip entries *)

(** On its own, [process_single_pdf] records each failure under the
    file's name: an empty text, a missing (or empty) section, a count
    of 0. The agent is otherwise left as it was. *)
Lemma process_single_pdf_records_skip self pdf :
  let filename := basename pdf in
  let date := extract_date_from_filename filename in
  let text := extract_text_from_pdf pdf in
  (text = "" ->
   process_single_pdf self pdf
   = (skip self filename "Failed to extract text", (date, None)))
  /\ (text <> "" -> extract_open_forum_section text = None ->
      process_single_pdf self pdf
      = (skip self filename "No Open Forum section found", (date, None)))
  /\ (forall section, text <> "" ->
      extract_open_forum_section text = Some section -> section <> "" ->
      count_public_comments section = 0 ->
      process_single_pdf self pdf
      = (skip self filename "No comments or 'no comment' marker found",
         (date, None)))
  /\ (forall section, text <> "" ->
      extract_open_forum_section text = Some section -> section <> "" ->
      count_public_comments section <> 0 ->
      process_single_pdf self pdf
      = (self, (date, Some (count_public_comments section)))).
Proof.
  cbv zeta. unfold process_single_pdf. repeat split.
  - by intros ->.
  - intros Ht%String.eqb_neq ->. by rewrite Ht.
  - intros section Ht%String.eqb_neq -> Hs ->. rewrite Ht.
    by destruct section.
  - intros section Ht%String.eqb_neq -> Hs Hc%Z.eqb_neq. rewrite Ht, Hc.
    by destruct section.
Qed.

Lemma process_one_with_stats_skipped acc pdf :
  skipped_files (process_one_with_stats acc pdf).1.1 = skipped_files acc.1.1.
Proof.
  destruct acc as [[self m] year]. unfold process_one_with_stats. simpl.
  destruct (String.eqb _ ""); [reflexivity|].
  destruct (extract_open_forum_section _) as [[|c s]|]; try reflexivity.
  by destruct (0 <? _).
Qed.

Lemma with_stats_skipped self walk :
  skipped_files (process_single_year_folder_with_stats self walk).1.1
  = skipped_files self.
Proof.
  unfold process_single_year_folder_with_stats.
  apply (fold_left_invariant
           (fun acc => skipped_files acc.1.1 = skipped_files self));
    [reflexivity|].
  intros acc pdf <-. apply process_one_with_stats_skipped.
Qed.

Lemma process_year_skipped acc year :
  skipped_files (process_year acc year).1.1 = skipped_files acc.1.1.
Proof.
  destruct acc as [[self results] total], year as [year_name [minutes|]];
    [|reflexivity].
  unfold process_year.
  pose proof (with_stats_skipped self minutes) as H.
  by destruct (process_single_year_folder_with_stats self minutes) as [[? ?] ?].
Qed.

(** C7 does not hold of the code: on the path through the academic-year
    folders no skip entry is ever recorded. Whatever the files of the
    year folders are (unreadable, without an Open Forum section, without
    comments), [skipped_files] after the run is what it was before. *)
Theorem yearly_run_records_no_skip
    (self self' : agent) (root : folder) (results : gmap string (gmap string Z)) :
  yearly_folders root <> [] ->
  process_folder self root = Some (self', results) ->
  skipped_files self' = skipped_files self.
Proof.
  intros Hyears. unfold process_folder.
  destruct (present root); simpl; [|discriminate].
  set (years := merge_sort _ (yearly_folders root)).
  assert (Hne : years <> []).
  { intros E. apply Hyears.
    pose proof (merge_sort_Permutation
                  (fun a b : string * option (list file) => String.le a.1 b.1)
                  (yearly_folders root)) as Hp.
    fold years in Hp. rewrite E in Hp.
    by apply Permutation_nil in Hp. }
  destruct years as [|y ys] eqn:Ey; [done|]. rewrite <- Ey. clear Ey Hne.
  set (self0 := Agent _ _ _ _).
  pose proof (fold_left_invariant
                (fun acc : agent * gmap string (gmap string Z) * Z =>
                   skipped_files acc.1.1 = skipped_files self)
                process_year years (self0, ∅, 0) eq_refl) as H.
  destruct (fold_left process_year years (self0, ∅, 0)) as [[self1 res] total].
  intros [= <- <-]. simpl. apply H.
  intros acc year <-. apply process_year_skipped.
Qed.

Lemma yearly_run_records_no_skip_witness :
  exists self' results,
    process_folder (AIMinutesAgent true) yearly_folder = Some (self', results)
    /\ skipped_files self' = []
    /\ processing_stats self' = Stats.Make 3 0 1 0
    /\ skipped_files
         (fold_left (fun self pdf => (process_single_pdf self pdf).1)
            [unreadable_minutes; no_section_minutes; no_comment_minutes]
            (AIMinutesAgent true))
       = [("minutes_03152023.PDF", "Failed to extract text");
          ("March 5 2020 notes.pdf", "No Open Forum section found");
          ("minutes 4.5.2021.pdf", "No comments or 'no comment' marker found")].
Proof.
  destruct (process_folder (AIMinutesAgent true) yearly_folder)
    as [[self' results]|] eqn:E; [|vm_compute in E; discriminate].
  exists self', results. split; [reflexivity|]. split.
  - apply (yearly_run_records_no_skip (AIMinutesAgent true) self' yearly_folder
             results); [vm_compute; discriminate|exact E].
  - vm_compute in E. injection E as <- _. split; vm_compute; reflexivity.
Defined.

(** *** What a pattern can match *)

Lemma orelse_is_Some {A} (x : option A) (y : unit -> option A) :
  is_Some x \/ is_Some (y tt) -> is_Some (Re.orelse x y).
Proof. destruct x; simpl; [eauto|]. by intros [[? [=]]|H]. Qed.

(** A match that exists is found: if [r] can match from [c0] to [c1] and
    the continuation accepts [c1], then running [r] at [c0] succeeds. *)
Lemma run_complete fl r c0 c1 :
  matches fl r c0 c1 ->
  forall caps k,
    (forall caps', is_Some (k c1 caps')) -> is_Some (Re.run fl r c0 caps k).
Proof.
  induction 1 as [cur|a prev c s Ha|r1 r2 c0 c1 c2 _ IH1 _ IH2
                  |r1 r2 c0 c1 _ IH|r1 r2 c0 c1 _ IH
                  |a hi greedy cur|a lo hi greedy prev c s c1 Hroom Ha _ IH
                  |n r c0 c1 _ IH|r c0 c1 _ IH|a c s Ha|s|cur He|prev|cur Hb];
    intros caps k Hk; simpl.
  - apply Hk.
  - rewrite Ha. apply Hk.
  - apply IH1. intros caps'. by apply IH2.
  - apply orelse_is_Some. left. by apply IH.
  - apply orelse_is_Some. right. by apply IH.
  - destruct cur as [prev s]. simpl.
    destruct s as [|c s]; simpl; destruct greedy;
      first [apply Hk | apply orelse_is_Some; auto].
  - specialize (IH caps k Hk). simpl in IH.
    rewrite Hroom, Ha. simpl.
    destruct lo as [|lo]; [|exact IH].
    destruct greedy; first [exact IH | apply orelse_is_Some; auto].
  - apply IH. intros caps'. apply Hk.
  - destruct (IH caps (fun c' cp' => Some (c', cp'))) as [[c' caps'] ->];
      [by eexists|]. apply Hk.
  - rewrite Ha. apply Hk.
  - apply Hk.
  - unfold at_end in He. destruct (Re.rest cur) as [|c [|]]; try discriminate;
      [apply Hk|]. rewrite He. apply Hk.
  - apply Hk.
  - rewrite Hb. apply Hk.
Qed.

Lemma repeat_match_sound fl a greedy s : forall lo hi prev k o,
  Re.repeat_match fl a greedy lo hi prev s k = Some o ->
  exists cur',
    matches fl (Re.Repeat a lo hi greedy) (Re.Cursor prev s) cur'
    /\ k cur' = Some o.
Proof.
  induction s as [|c s IH]; intros lo hi prev k o; simpl.
  - destruct lo; [|discriminate].
    assert (k (Re.Cursor prev "") = Some o ->
            exists cur', matches fl (Re.Repeat a 0 hi greedy)
                                 (Re.Cursor prev "") cur' /\ k cur' = Some o)
      as Hstop by (intros H; eexists; split; [apply M_Stop|exact H]).
    destruct greedy; simpl; [exact Hstop|].
    destruct (k _) eqn:E; simpl; [|discriminate]. intros [= <-]. by apply Hstop.
  - assert (Hmore : forall lo',
              Nat.pred lo = lo' ->
              (if Re.room hi && Re.atom_match fl a c
               then Re.repeat_match fl a greedy lo' (Re.less hi) (Some c) s k
               else None) = Some o ->
              exists cur', matches fl (Re.Repeat a lo hi greedy)
                                   (Re.Cursor prev (String c s)) cur'
                           /\ k cur' = Some o).
    { intros lo' <-. destruct (Re.room hi) eqn:Hr; [|discriminate].
      destruct (Re.atom_match fl a c) eqn:Ha; [|discriminate]. simpl.
      intros H. apply IH in H as (cur' & Hm & Hk).
      exists cur'. split; [by apply M_More|exact Hk]. }
    destruct lo as [|lo']; [|by apply Hmore].
    assert (k (Re.Cursor prev (String c s)) = Some o ->
            exists cur', matches fl (Re.Repeat a 0 hi greedy)
                                 (Re.Cursor prev (String c s)) cur'
                         /\ k cur' = Some o)
      as Hstop by (intros H; eexists; split; [apply M_Stop|exact H]).
    destruct greedy; unfold Re.orelse.
    + destruct (if Re.room hi && Re.atom_match fl a c then _ else None) eqn:E.
      * intros [= <-]. by apply (Hmore 0%nat).
      * exact Hstop.
    + destruct (k _) eqn:E; [intros [= <-]; by apply Hstop|].
      by apply (Hmore 0%nat).
Qed.

(** A match that is found exists: whenever running [r] at [c0] succeeds,
    [r] can match from [c0] to a position the continuation accepts. *)
Lemma run_sound fl r : forall cur caps k o,
  Re.run fl r cur caps k = Some o ->
  exists cur' caps', matches fl r cur cur' /\ k cur' caps' = Some o.
Proof.
  induction r as [|a|r1 IH1 r2 IH2|r1 IH1 r2 IH2|a lo hi greedy|m r1 IH1
                  |r1 IH1|a| | | |]; intros cur caps k o; simpl.
  - intros H. exists cur, caps. split; [constructor|exact H].
  - destruct cur as [prev [|c s]]; simpl; [discriminate|].
    destruct (Re.atom_match fl a c) eqn:Ha; [|discriminate].
    intros H. eexists _, caps. split; [by constructor|exact H].
  - intros H. apply IH1 in H as (c1 & cp1 & M1 & H).
    apply IH2 in H as (c2 & cp2 & M2 & H).
    exists c2, cp2. split; [by econstructor|exact H].
  - unfold Re.orelse. destruct (Re.run fl r1 cur caps k) eqn:E.
    + intros [= <-]. apply IH1 in E as (c1 & cp1 & M1 & H).
      exists c1, cp1. split; [by apply M_OrL|exact H].
    + intros H. apply IH2 in H as (c2 & cp2 & M2 & H).
      exists c2, cp2. split; [by apply M_OrR|exact H].
  - intros H. apply repeat_match_sound in H as (cur' & Hm & H).
    exists cur', caps. split; [by destruct cur|exact H].
  - intros H. apply IH1 in H as (c1 & cp1 & M1 & H).
    eexists c1, _. split; [by apply M_Group|exact H].
  - destruct (Re.run fl r1 cur caps _) as [[c1 cp1]|] eqn:E; [|discriminate].
    intros H. apply IH1 in E as (c2 & cp2 & M1 & _).
    exists cur, cp1. split; [by eapply M_Ahead|exact H].
  - destruct cur as [[c|] s]; simpl; [|discriminate].
    destruct (Re.atom_match fl a c) eqn:Ha; [|discriminate].
    intros H. eexists _, caps. split; [by constructor|exact H].
  - destruct cur as [[c|] s]; simpl; [discriminate|].
    intros H. eexists _, caps. split; [constructor|exact H].
  - intros H.
    assert (He : at_end (Re.rest cur) = true /\ k cur caps = Some o).
    { unfold at_end. destruct (Re.rest cur) as [|c [|]]; try discriminate;
        [by split|]. by destruct (Ascii.eqb c Py.LF). }
    destruct He as [He Hk]. exists cur, caps. split; [by apply M_Eos|exact Hk].
  - destruct cur as [prev [|c s]]; simpl; [|discriminate].
    intros H. eexists _, caps. split; [constructor|exact H].
  - destruct (xorb _ _) eqn:Hb; [|discriminate].
    intros H. exists cur, caps. split; [by constructor|exact H].
Qed.

Lemma at_cursor_iff fl r pos cur :
  is_Some (Re.at_cursor fl r pos cur) <-> exists c1, matches fl r cur c1.
Proof.
  unfold Re.at_cursor. split.
  - destruct (Re.run fl r cur [] Re.accept) as [[cur' caps]|] eqn:E;
      [|by intros [? [=]]].
    intros _. apply run_sound in E as (c1 & _ & Hm & _). by exists c1.
  - intros [c1 Hm].
    destruct (run_complete fl r cur c1 Hm [] Re.accept) as [[cur' caps] ->];
      by eexists.
Qed.

Lemma search_from_complete fl r pre : forall prev pos rest c1,
  matches fl r (Re.Cursor (last_char prev pre) rest) c1 ->
  is_Some (Re.search_from fl r prev pos (pre ++ rest)).
Proof.
  induction pre as [|c pre IH]; intros prev pos rest c1 Hm.
  - simpl in *.
    destruct (proj2 (at_cursor_iff fl r pos (Re.Cursor prev rest)))
      as [m Hrun]; [by exists c1|].
    destruct rest; simpl; rewrite Hrun; by eexists.
  - change (String c pre ++ rest) with (String c (pre ++ rest)). simpl.
    destruct (Re.at_cursor fl r pos _); [by eexists|].
    eapply IH. exact Hm.
Qed.

Lemma search_from_sound fl r s : forall prev pos,
  is_Some (Re.search_from fl r prev pos s) ->
  exists pre rest c1,
    s = pre ++ rest /\ matches fl r (Re.Cursor (last_char prev pre) rest) c1.
Proof.
  induction s as [|c s IH]; intros prev pos; simpl.
  - destruct (Re.at_cursor fl r pos _) eqn:E; [|by intros [? [=]]].
    intros _.
    destruct (proj1 (at_cursor_iff fl r pos (Re.Cursor prev ""))) as [c1 Hm];
      [by rewrite E|].
    by exists "", "", c1.
  - destruct (Re.at_cursor fl r pos _) eqn:E.
    + intros _.
      destruct (proj1 (at_cursor_iff fl r pos (Re.Cursor prev (String c s))))
        as [c1 Hm]; [by rewrite E|].
      by exists "", (String c s), c1.
    + intros H. apply IH in H as (pre & rest & c1 & -> & Hm).
      by exists (String c pre), rest, c1.
Qed.

(** [re.search] finds a pattern that can match somewhere in the text. *)
Lemma search_complete fl r pre rest c1 :
  matches fl r (Re.Cursor (last_char None pre) rest) c1 ->
  is_Some (Re.search fl r (pre ++ rest)).
Proof. apply search_from_complete. Qed.

(** [re.search] succeeds exactly when the pattern can match somewhere. *)
Lemma search_iff fl r text :
  is_Some (Re.search fl r text) <-> occurs fl r text.
Proof.
  split.
  - apply search_from_sound.
  - intros (pre & rest & c1 & -> & Hm). by eapply search_complete.
Qed.

(** *** The section locator *)

Lemma first_some_none_inv {A B} (f : A -> option B) (l : list A) :
  first_some f l = None -> forall x, In x l -> f x = None.
Proof.
  induction l as [|x l IH]; simpl; [by intros _ ? []|].
  destruct (f x) eqn:E; [discriminate|].
  intros H x' [<-|Hin]; [exact E|by apply IH].
Qed.

(** C3. A text has no Open Forum section exactly when no pattern of the
    cascade can match anywhere in it, and the section of the example text
    is the span between its two headers, trimmed:
    "John asked about parking.". *)
Theorem extract_open_forum_section_spec :
  (forall text,
     (forall pattern, In pattern open_forum_patterns ->
        ~ occurs Re.DOTALL_IGNORECASE pattern text)
     <-> extract_open_forum_section text = None)
  /\ extract_open_forum_section open_forum_example
     = Some "John asked about parking."
  /\ open_forum_example
     = "V. Open Forum"
       ++ (Py.nl ++ "John asked about parking." ++ Py.nl)
       ++ "VI. Discussion Items" ++ Py.nl ++ "..."
  /\ Py.strip (Py.nl ++ "John asked about parking." ++ Py.nl)
     = "John asked about parking.".
Proof.
  split; [|repeat split; vm_compute; reflexivity].
  intros text. unfold extract_open_forum_section. split.
  - intros H. apply first_some_none. intros pattern Hin.
    unfold try_section.
    destruct (Re.search Re.DOTALL_IGNORECASE pattern text) eqn:E;
      [|reflexivity].
    destruct (H pattern Hin). apply search_iff. by rewrite E.
  - intros H pattern Hin Hocc%search_iff.
    pose proof (first_some_none_inv _ _ H pattern Hin) as Hp.
    unfold try_section in Hp. destruct Hocc as [m Hm]. by rewrite Hm in Hp.
Qed.

Lemma extract_open_forum_section_spec_witness :
  extract_open_forum_section "Budget review only." = None.
Proof.
  apply (proj1 extract_open_forum_section_spec).
  intros pattern Hin Hocc%search_iff.
  unfold open_forum_patterns in Hin. simpl in Hin.
  repeat (destruct Hin as [<-|Hin];
          [vm_compute in Hocc; by destruct Hocc as [? [=]]|]).
  destruct Hin.
Defined.

(** *** The explicit no-comments check fires on containment *)

Lemma last_char_app s1 : forall prev s2,
  last_char prev (s1 ++ s2) = last_char (last_char prev s1) s2.
Proof. induction s1 as [|c s1 IH]; intros prev s2; simpl; [reflexivity|apply IH]. Qed.

Lemma append_assoc (s1 s2 s3 : string) : (s1 ++ s2) ++ s3 = s1 ++ (s2 ++ s3).
Proof. induction s1 as [|c s1 IH]; simpl; [reflexivity|f_equal; exact IH]. Qed.

Lemma lower_app_inv w1 : forall w2 mid,
  Py.lower mid = w1 ++ w2 ->
  exists m1 m2, mid = m1 ++ m2 /\ Py.lower m1 = w1 /\ Py.lower m2 = w2.
Proof.
  induction w1 as [|x w1 IH]; intros w2 mid H.
  - exists "", mid. auto.
  - destruct mid as [|c mid]; [discriminate|]. simpl in H.
    injection H as Hc Hrest.
    destruct (IH _ _ Hrest) as (m1 & m2 & -> & H1 & H2).
    exists (String c m1), m2. simpl. by rewrite Hc, H1.
Qed.

(** Under IGNORECASE a literal pattern matches any text that lower-cases
    to the same string. *)
Lemma matches_lit w : forall mid prev post,
  Py.lower mid = Py.lower w ->
  matches Re.IGNORECASE (Re.lit w) (Re.Cursor prev (mid ++ post))
          (Re.Cursor (last_char prev mid) post).
Proof.
  induction w as [|x w IH]; intros mid prev post H.
  - destruct mid; [constructor|discriminate].
  - destruct mid as [|c mid]; [discriminate|]. simpl in H.
    injection H as Hc Hrest.
    assert (Hx : Re.atom_match Re.IGNORECASE (Re.Lit x) c = true).
    { simpl. rewrite Hc. apply Ascii.eqb_refl. }
    destruct w as [|y w].
    + destruct mid; [|discriminate]. simpl. by constructor.
    + change (Re.lit (String x (String y w)))
        with (Re.Seq (Re.Atom (Re.Lit x)) (Re.lit (String y w))).
      change (String c mid ++ post) with (String c (mid ++ post)).
      change (last_char prev (String c mid)) with (last_char (Some c) mid).
      eapply M_Seq; [by constructor|]. by apply IH.
Qed.

(** A lower-case literal. *)
Lemma matches_phrase w mid prev post :
  Py.lower w = w -> Py.lower mid = w ->
  matches Re.IGNORECASE (Re.lit w) (Re.Cursor prev (mid ++ post))
          (Re.Cursor (last_char prev mid) post).
Proof. intros Hw Hm. apply matches_lit. congruence. Qed.

(** [w x?] against a text that lower-cases to [w]. *)
Lemma matches_phrase_opt_skip w x mid prev post :
  Py.lower w = w -> Py.lower mid = w ->
  matches Re.IGNORECASE (Re.Seq (Re.lit w) (Re.opt (Re.Lit x)))
          (Re.Cursor prev (mid ++ post)) (Re.Cursor (last_char prev mid) post).
Proof.
  intros Hw Hm. eapply M_Seq; [by apply matches_phrase|]. apply M_Stop.
Qed.

(** [w x?] against a text that lower-cases to [w] followed by [x]. *)
Lemma matches_phrase_opt_take w x mid prev post :
  Py.lower w = w -> Py.lower_char x = x -> Py.lower mid = w ++ String x "" ->
  matches Re.IGNORECASE (Re.Seq (Re.lit w) (Re.opt (Re.Lit x)))
          (Re.Cursor prev (mid ++ post)) (Re.Cursor (last_char prev mid) post).
Proof.
  intros Hw Hx Hm.
  apply lower_app_inv in Hm as (m1 & m2 & -> & H1 & H2).
  destruct m2 as [|c [|c' m2]]; try discriminate.
  simpl in H2. injection H2 as Hc.
  rewrite append_assoc, last_char_app. simpl.
  eapply M_Seq; [by apply matches_phrase|].
  apply M_More; [reflexivity| |apply M_Stop].
  simpl. rewrite Hc, Hx. apply Ascii.eqb_refl.
Qed.

(** [n/?a] against what lower-cases to "n/a" or to "na". *)
Lemma matches_n_a mid prev post :
  Py.lower mid = "n/a" \/ Py.lower mid = "na" ->
  matches Re.IGNORECASE n_a (Re.Cursor prev (mid ++ post))
          (Re.Cursor (last_char prev mid) post).
Proof.
  intros [H|H].
  - destruct mid as [|c1 [|c2 [|c3 [|c4 mid]]]]; try discriminate.
    simpl in H. injection H as H1 H2 H3.
    unfold n_a. simpl.
    eapply M_Seq; [constructor; simpl; rewrite H1; reflexivity|].
    eapply M_Seq.
    + apply M_More; [reflexivity|simpl; rewrite H2; reflexivity|apply M_Stop].
    + constructor. simpl. rewrite H3. reflexivity.
  - destruct mid as [|c1 [|c2 [|c3 mid]]]; try discriminate.
    simpl in H. injection H as H1 H2.
    unfold n_a. simpl.
    eapply M_Seq; [constructor; simpl; rewrite H1; reflexivity|].
    eapply M_Seq; [apply M_Stop|].
    constructor. simpl. rewrite H2. reflexivity.
Qed.

(** [\b(inner)\b] is found wherever [inner] can match between two word
    boundaries. *)
Lemma bounded_found inner pre mid post :
  boundary_at pre (mid ++ post) = true ->
  boundary_at (pre ++ mid) post = true ->
  matches Re.IGNORECASE inner (Re.Cursor (last_char None pre) (mid ++ post))
          (Re.Cursor (last_char (last_char None pre) mid) post) ->
  is_Some (Re.search Re.IGNORECASE
             (Re.seq [Re.Boundary; Re.Group 1 inner; Re.Boundary])
             (pre ++ mid ++ post)).
Proof.
  intros Hl Hr Hm. eapply search_complete. simpl.
  eapply M_Seq; [apply M_Boundary; exact Hl|].
  eapply M_Seq; [apply M_Group; exact Hm|].
  apply M_Boundary. unfold boundary_at, ends_with_word in Hr.
  by rewrite last_char_app in Hr.
Qed.

Lemma has_no_comments_on_occurrence phrase text :
  In phrase no_comment_phrases -> occurs_word_bounded phrase text ->
  has_no_comments text = true.
Proof.
  intros Hin (pre & mid & post & -> & Hmid & Hl & Hr).
  unfold has_no_comments, no_comment_patterns.
  set (prev := last_char None pre).
  assert (Hfound : forall inner,
            matches Re.IGNORECASE inner (Re.Cursor prev (mid ++ post))
                    (Re.Cursor (last_char prev mid) post) ->
            bool_decide (is_Some (Re.search Re.IGNORECASE
              (Re.seq [Re.Boundary; Re.Group 1 inner; Re.Boundary])
              (pre ++ mid ++ post))) = true).
  { intros inner Hm. apply bool_decide_eq_true. by apply bounded_found. }
  unfold no_comment_phrases in Hin. simpl in Hin.
  cbn [existsb].
  destruct Hin as [<-|[<-|[<-|[<-|[<-|[<-|[<-|Hin]]]]]]].
  1-7: rewrite Hfound; [reflexivity|]; cbn [Re.alt].
  - apply M_OrL. by apply matches_phrase.
  - apply M_OrR, M_OrL. by apply (matches_phrase_opt_skip "no comment").
  - apply M_OrR, M_OrL. by apply (matches_phrase_opt_take "no comment" "s").
  - apply M_OrR, M_OrR, M_OrL. by apply matches_phrase.
  - apply M_OrR, M_OrR, M_OrR, M_OrL. apply matches_n_a. by left.
  - apply M_OrR, M_OrR, M_OrR, M_OrL. apply matches_n_a. by right.
  - apply M_OrR, M_OrR, M_OrR, M_OrR. by apply matches_phrase.
  - destruct Hin as [<-|[<-|[<-|[<-|Hin]]]].
    1-4: rewrite (Hfound (Re.alt [Re.lit "no public comment";
                                  Re.lit "no discussion";
                                  Re.seq [Re.lit "no speaker";
                                          Re.opt (Re.Lit "s")]]));
         [by rewrite orb_true_r|]; cbn [Re.alt].
    + apply M_OrL. by apply matches_phrase.
    + apply M_OrR, M_OrL. by apply matches_phrase.
    + apply M_OrR, M_OrR. by apply (matches_phrase_opt_skip "no speaker").
    + apply M_OrR, M_OrR. by apply (matches_phrase_opt_take "no speaker" "s").
    + rewrite (Hfound (Re.alt [Re.lit "no one spoke"; Re.lit "no attendees";
                               Re.lit "no participants"]));
        [by rewrite !orb_true_r|]; cbn [Re.alt].
      destruct Hin as [<-|[<-|[<-|[]]]].
      * apply M_OrL. by apply matches_phrase.
      * apply M_OrR, M_OrL. by apply matches_phrase.
      * apply M_OrR, M_OrR. by apply matches_phrase.
Qed.

(** C9. The explicit no-comments check fires on containment: whenever one
    of the phrases occurs anywhere in a span, in any letter case and
    between two word boundaries, [has_no_comments] holds and the comment
    count is 0, whatever else the span contains. *)
Theorem count_zero_on_no_comment_phrase (phrase text : string) :
  In phrase no_comment_phrases -> occurs_word_bounded phrase text ->
  has_no_comments text = true /\ count_public_comments text = 0.
Proof.
  intros Hin Hocc.
  assert (H : has_no_comments text = true)
    by (by apply (has_no_comments_on_occurrence phrase)).
  split; [exact H|].
  unfold count_public_comments. rewrite H. by rewrite orb_true_r.
Qed.

Lemma count_zero_on_no_comment_phrase_witness :
  count_public_comments long_comment_with_phrase = 0.
Proof.
  apply (count_zero_on_no_comment_phrase "no comments" long_comment_with_phrase).
  - simpl. auto.
  - exists "John Smith asked at length why the parking fees went up this year. There were ",
           "NO Comments",
           " from the board. Mary Jones stated that the shuttle schedule should be extended.".
    repeat split; vm_compute; reflexivity.
Defined.

(** *** Reading back what the export wrote *)

Lemma append_nil_r (s : string) : s ++ "" = s.
Proof. induction s as [|c s IH]; simpl; [reflexivity|f_equal; exact IH]. Qed.

Lemma concat_cons (x : string) (xs : list string) :
  String.concat "" (x :: xs) = x ++ String.concat "" xs.
Proof. destruct xs; simpl; [by rewrite append_nil_r|reflexivity]. Qed.

(** Splits a hypothesis [Csv.special x = false] into its four tests. *)
Ltac plain_char H :=
  let Hcomma := fresh "Hcomma" in
  let Hquote := fresh "Hquote" in
  let Hcr := fresh "Hcr" in
  let Hlf := fresh "Hlf" in
  unfold Csv.special in H;
  apply orb_false_iff in H as [H Hlf];
  apply orb_false_iff in H as [H Hcr];
  apply orb_false_iff in H as [Hcomma Hquote].

Lemma feed_unquoted f : forall acc fs recs rest,
  Csv.needs_quotes f = false ->
  Csv.feed (Csv.Reader Csv.IN_FIELD acc fs recs) (f ++ rest)
  = Csv.feed (Csv.Reader Csv.IN_FIELD (acc ++ f) fs recs) rest.
Proof.
  induction f as [|x f IH]; intros acc fs recs rest Hq; simpl.
  - by rewrite append_nil_r.
  - simpl in Hq. apply orb_false_iff in Hq as [Hx Hf].
    plain_char Hx.
    unfold Csv.step, Csv.is_newline. simpl.
    rewrite Hcr, Hlf, Hcomma. simpl.
    unfold Csv.add_char. simpl. rewrite IH by exact Hf.
    by rewrite append_assoc.
Qed.

Lemma step_quoted_quote acc fs recs :
  Csv.step (Csv.step (Csv.Reader Csv.IN_QUOTED_FIELD acc fs recs) Csv.QUOTE)
           Csv.QUOTE
  = Csv.Reader Csv.IN_QUOTED_FIELD (acc ++ String Csv.QUOTE "") fs recs.
Proof. reflexivity. Qed.

Lemma step_quoted_other acc fs recs x :
  Ascii.eqb x Csv.QUOTE = false ->
  Csv.step (Csv.Reader Csv.IN_QUOTED_FIELD acc fs recs) x
  = Csv.Reader Csv.IN_QUOTED_FIELD (acc ++ String x "") fs recs.
Proof. intros Hx. unfold Csv.step. simpl. by rewrite Hx. Qed.

Lemma feed_quoted f : forall acc fs recs c rest,
  Ascii.eqb c Csv.QUOTE = false ->
  Csv.feed (Csv.Reader Csv.IN_QUOTED_FIELD acc fs recs)
           (Csv.escape f ++ String Csv.QUOTE (String c rest))
  = Csv.feed
      (Csv.step (Csv.Reader Csv.QUOTE_IN_QUOTED_FIELD (acc ++ f) fs recs) c)
      rest.
Proof.
  induction f as [|x f IH]; intros acc fs recs c rest Hc.
  - simpl. by rewrite append_nil_r.
  - simpl. destruct (Ascii.eqb x Csv.QUOTE) eqn:Hx.
    + apply Ascii.eqb_eq in Hx as ->. simpl.
      rewrite step_quoted_quote, IH by exact Hc.
      by rewrite append_assoc.
    + simpl. rewrite step_quoted_other, IH by assumption.
      by rewrite append_assoc.
Qed.

(** One field, written and read back up to its terminator. *)
Lemma feed_field f fs recs c rest :
  terminator c ->
  Csv.feed (Csv.Reader Csv.START_FIELD "" fs recs)
           (Csv.write_field f ++ String c rest)
  = Csv.feed (close c (Csv.Reader Csv.START_FIELD f fs recs)) rest.
Proof.
  intros Hc.
  assert (Hq : Ascii.eqb c Csv.QUOTE = false) by (by destruct Hc as [-> | ->]).
  unfold Csv.write_field. destruct (Csv.needs_quotes f) eqn:Hf.
  - change (String Csv.QUOTE (Csv.escape f ++ String Csv.QUOTE "")
            ++ String c rest)
      with (String Csv.QUOTE ((Csv.escape f ++ String Csv.QUOTE "")
                              ++ String c rest)).
    rewrite append_assoc. simpl.
    change (Csv.step (Csv.Reader Csv.START_FIELD "" fs recs) Csv.QUOTE)
      with (Csv.Reader Csv.IN_QUOTED_FIELD "" fs recs).
    rewrite feed_quoted by exact Hq. f_equal.
    by destruct Hc as [-> | ->].
  - destruct f as [|x f].
    + simpl. f_equal. by destruct Hc as [-> | ->].
    + simpl in Hf. apply orb_false_iff in Hf as [Hx Hf].
      simpl.
      assert (Hstep : Csv.step (Csv.Reader Csv.START_FIELD "" fs recs) x
                      = Csv.Reader Csv.IN_FIELD (String x "") fs recs).
      { plain_char Hx.
        unfold Csv.step, Csv.start_field, Csv.is_newline. simpl.
        by rewrite Hcr, Hlf, Hquote, Hcomma. }
      rewrite Hstep, feed_unquoted by exact Hf. simpl. f_equal.
      by destruct Hc as [-> | ->].
Qed.

(** The remaining fields of a row, written and read back. *)
Lemma feed_fields fs : forall f seen recs rest,
  Csv.feed (Csv.Reader Csv.START_FIELD "" seen recs)
           ((Py.join "," (map Csv.write_field (f :: fs)) ++ Py.crlf) ++ rest)
  = Csv.feed (Csv.Reader Csv.START_RECORD "" [] (recs ++ [(seen ++ f :: fs)%list]))
             rest.
Proof.
  induction fs as [|f2 fs IH]; intros f seen recs rest.
  - simpl. rewrite append_assoc.
    change (Py.crlf ++ rest) with (String Py.CR (String Py.LF rest)).
    rewrite feed_field by (by right). reflexivity.
  - change (Py.join "," (map Csv.write_field (f :: f2 :: fs)))
      with (Csv.write_field f
            ++ "," ++ Py.join "," (map Csv.write_field (f2 :: fs))).
    rewrite !append_assoc.
    change ("," ++ Py.join "," (map Csv.write_field (f2 :: fs))
            ++ Py.crlf ++ rest)
      with (String Csv.COMMA
              (Py.join "," (map Csv.write_field (f2 :: fs)) ++ Py.crlf ++ rest)).
    rewrite feed_field by (by left).
    change (close Csv.COMMA (Csv.Reader Csv.START_FIELD f seen recs))
      with (Csv.Reader Csv.START_FIELD "" (seen ++ [f]) recs).
    rewrite <- append_assoc, IH. by rewrite <- app_assoc.
Qed.

(** A row of at least two fields, written and read back. *)
Lemma feed_row f1 f2 fs recs rest :
  Csv.feed (Csv.Reader Csv.START_RECORD "" [] recs)
           (Csv.writerow (f1 :: f2 :: fs) ++ rest)
  = Csv.feed (Csv.Reader Csv.START_RECORD "" [] (recs ++ [f1 :: f2 :: fs]))
             rest.
Proof.
  transitivity
    (Csv.feed (Csv.Reader Csv.START_FIELD "" [] recs)
       ((Py.join "," (map Csv.write_field (f1 :: f2 :: fs)) ++ Py.crlf)
        ++ rest));
    [|apply (feed_fields (f2 :: fs) f1 [] recs rest)].
  assert (Hw : Csv.writerow (f1 :: f2 :: fs)
               = Py.join "," (map Csv.write_field (f1 :: f2 :: fs)) ++ Py.crlf).
  { unfold Csv.writerow. by destruct f1. }
  rewrite Hw.
  change (Py.join "," (map Csv.write_field (f1 :: f2 :: fs)))
    with (Csv.write_field f1
          ++ "," ++ Py.join "," (map Csv.write_field (f2 :: fs))).
  rewrite !append_assoc.
  unfold Csv.write_field at 1 3.
  destruct (Csv.needs_quotes f1) eqn:Hq; [reflexivity|].
  destruct f1 as [|x f1]; [reflexivity|].
  simpl in Hq. apply orb_false_iff in Hq as [Hx _].
  plain_char Hx.
  simpl. f_equal.
  unfold Csv.step, Csv.start_record, Csv.is_newline. simpl.
  by rewrite Hcr, Hlf.
Qed.

Lemma feed_rows rows : forall recs,
  Forall wide rows ->
  Csv.feed (Csv.Reader Csv.START_RECORD "" [] recs)
           (String.concat "" (map Csv.writerow rows))
  = Csv.Reader Csv.START_RECORD "" [] (recs ++ rows).
Proof.
  induction rows as [|row rows IH]; intros recs Hw.
  - simpl. by rewrite app_nil_r.
  - inversion Hw as [|? ? (f1 & f2 & fs & ->) Hrest]; subst.
    change (map Csv.writerow ((f1 :: f2 :: fs) :: rows))
      with (Csv.writerow (f1 :: f2 :: fs) :: map Csv.writerow rows).
    rewrite concat_cons, feed_row, IH by exact Hrest.
    by rewrite <- app_assoc.
Qed.

(** Reading what [csv.writer] wrote gives back the rows. *)
Lemma read_written rows :
  Forall wide rows ->
  Csv.read (String.concat "" (map Csv.writerow rows)) = rows.
Proof. intros Hw. unfold Csv.read. by rewrite feed_rows. Qed.

Lemma int_str (n : Z) : Py.int (Py.str n) = Some n.
Proof.
  unfold Py.int, Py.str.
  rewrite NilZero.isi.
  - simpl. by rewrite DecimalZ.of_to.
  - destruct n; simpl; try discriminate.
    intros [= H]. by apply (DecimalPos.Unsigned.to_uint_nonnil p).
  - destruct n; simpl; try discriminate.
    intros [= H]. by apply (DecimalPos.Unsigned.to_uint_nonnil p).
Qed.

(** *** The export is a lossless, ordered serialization *)

Lemma export_rows_triples yearly_data :
  export_rows yearly_data = map row_of (triples yearly_data).
Proof.
  unfold export_rows, triples. rewrite concat_map, map_map.
  f_equal. apply map_ext. intros year. rewrite map_map.
  apply map_ext. by intros [date count].
Qed.

Lemma parse_rows ts : mapM parse_row (map row_of ts) = Some ts.
Proof.
  apply mapM_Some. induction ts as [|[[y d0] c] ts IH]; simpl; constructor;
    [|exact IH].
  unfold parse_row, row_of. simpl. by rewrite int_str.
Qed.

Lemma strongly_sorted_strict {A} (f : A -> string) (l : list A) :
  StronglySorted (fun a b => String.le (f a) (f b)) l ->
  NoDup (map f l) ->
  StronglySorted (fun a b => str_lt (f a) (f b)) l.
Proof.
  induction 1 as [|x l Hl IH Hx]; intros Hnd; constructor.
  - apply IH. by inversion Hnd.
  - apply Forall_forall. intros y Hy. split.
    + rewrite Forall_forall in Hx. by apply Hx.
    + intros E. inversion Hnd as [|? ? Hnotin _]; subst.
      apply Hnotin. rewrite E. apply list_elem_of_In, in_map.
      by apply list_elem_of_In.
Qed.

#[local] Instance le_fst_trans {V} :
  Transitive (fun a b : string * V => String.le a.1 b.1).
Proof. intros a b c Hab Hbc. by etrans. Qed.

#[local] Instance le_fst_total {V} :
  Total (fun a b : string * V => String.le a.1 b.1).
Proof. intros a b. apply (total String.le). Qed.

Lemma sorted_keys_spec {V} (m : gmap string V) :
  (forall k, In k (sorted_keys m) <-> is_Some (m !! k))
  /\ StronglySorted str_lt (sorted_keys m).
Proof.
  unfold sorted_keys.
  pose proof (merge_sort_Permutation String.le (map fst (map_to_list m))) as Hp.
  split.
  - intros k. rewrite <- list_elem_of_In, Hp, list_elem_of_In, in_map_iff.
    split.
    + intros ([k' v] & <- & Hin). simpl.
      apply list_elem_of_In, elem_of_map_to_list in Hin. by eexists.
    + intros [v Hv]. exists (k, v). split; [reflexivity|].
      by apply list_elem_of_In, elem_of_map_to_list.
  - apply (strongly_sorted_strict (fun k => k)).
    + apply StronglySorted_merge_sort; apply _.
    + rewrite map_id, Hp. apply NoDup_fst_map_to_list.
Qed.

Lemma sorted_items_spec {V} (m : gmap string V) :
  (forall k v, In (k, v) (sorted_items m) <-> m !! k = Some v)
  /\ StronglySorted (fun a b => str_lt a.1 b.1) (sorted_items m).
Proof.
  unfold sorted_items.
  pose proof (merge_sort_Permutation
                (fun a b : string * V => String.le a.1 b.1) (map_to_list m))
    as Hp.
  split.
  - intros k v. rewrite <- list_elem_of_In, Hp. apply elem_of_map_to_list.
  - apply (strongly_sorted_strict fst).
    + apply StronglySorted_merge_sort; apply _.
    + change (map fst ?l) with (fst <$> l). rewrite Hp.
      apply NoDup_fst_map_to_list.
Qed.

Lemma sorted_blocks {A B} (R : B -> B -> Prop) (Rk : A -> A -> Prop)
    (block : A -> list B) (keys : list A) :
  StronglySorted Rk keys ->
  (forall k, StronglySorted R (block k)) ->
  (forall k1 k2 x y, Rk k1 k2 -> In x (block k1) -> In y (block k2) -> R x y) ->
  StronglySorted R (concat (map block keys)).
Proof.
  intros Hk Hin Hacross.
  induction Hk as [|k keys Hkeys IH Hall]; simpl; [constructor|].
  apply StronglySorted_app_2; [|apply Hin|apply IH].
  intros x y Hx%list_elem_of_In Hy%list_elem_of_In.
  apply in_concat in Hy as (l & Hl & Hy).
  apply in_map_iff in Hl as (k2 & <- & Hk2).
  rewrite Forall_forall in Hall.
  eapply Hacross; [apply Hall, list_elem_of_In, Hk2|exact Hx|exact Hy].
Qed.

Lemma in_triples yearly_data y d0 c :
  In (y, d0, c) (triples yearly_data)
  <-> exists year_data, yearly_data !! y = Some year_data
                        /\ year_data !! d0 = Some c.
Proof.
  unfold triples. rewrite in_concat. split.
  - intros (l & Hl & Hin).
    apply in_map_iff in Hl as (year & <- & Hyear).
    apply in_map_iff in Hin as ([date count] & [= <- <- <-] & Hitem).
    apply (proj1 (sorted_keys_spec yearly_data)) in Hyear as [year_data Hy].
    rewrite Hy in Hitem. simpl in Hitem.
    apply (proj1 (sorted_items_spec year_data)) in Hitem. eauto.
  - intros (year_data & Hy & Hd).
    eexists. split.
    + apply in_map_iff. exists y. split; [reflexivity|].
      apply (proj1 (sorted_keys_spec yearly_data)). by eexists.
    + rewrite Hy. simpl. apply in_map_iff. exists (d0, c).
      split; [reflexivity|]. by apply (proj1 (sorted_items_spec year_data)).
Qed.

Lemma triples_sorted yearly_data :
  StronglySorted triple_lt (triples yearly_data).
Proof.
  unfold triples.
  apply (sorted_blocks triple_lt str_lt).
  - apply (proj2 (sorted_keys_spec yearly_data)).
  - intros year.
    pose proof (proj2 (sorted_items_spec (default ∅ (yearly_data !! year))))
      as Hs.
    induction Hs as [|item items Hitems IH Hall]; simpl; constructor;
      [exact IH|].
    apply Forall_forall. intros t Ht%list_elem_of_In.
    apply in_map_iff in Ht as (item2 & <- & Hin).
    rewrite Forall_forall in Hall. right. split; [reflexivity|].
    simpl. by apply Hall, list_elem_of_In.
  - intros k1 k2 x y Hlt
      (i1 & <- & _)%in_map_iff (i2 & <- & _)%in_map_iff.
    by left.
Qed.

(** C8. The export is a lossless serialization: the file is the header
    row followed by one row per (year, date, count) triple, ordered by
    year and then by date; reading it back with [csv.reader] returns
    exactly these rows, and converting them gives exactly the triples of
    the mapping, each once. *)
Theorem export_to_csv_roundtrip (yearly_data : gmap string (gmap string Z)) :
  Csv.read (export_to_csv yearly_data)
  = header :: map row_of (triples yearly_data)
  /\ reparse (export_to_csv yearly_data) = Some (triples yearly_data)
  /\ (forall year date count,
        In (year, date, count) (triples yearly_data)
        <-> exists year_data, yearly_data !! year = Some year_data
                              /\ year_data !! date = Some count)
  /\ StronglySorted triple_lt (triples yearly_data).
Proof.
  assert (Hread : Csv.read (export_to_csv yearly_data)
                  = header :: map row_of (triples yearly_data)).
  { unfold export_to_csv. rewrite export_rows_triples.
    apply (read_written (header :: map row_of (triples yearly_data))).
    constructor; [by exists "Academic_Year", "Date", ["Comment_Count"]|].
    apply Forall_forall. intros row (t & <- & _)%list_elem_of_In%in_map_iff.
    by exists t.1.1, t.1.2, [Py.str t.2]. }
  split; [exact Hread|]. split.
  - unfold reparse. rewrite Hread.
    destruct (decide (header = header)); [|done]. apply parse_rows.
  - split; [intros; apply in_triples|apply triples_sorted].
Qed.

(** *** Groups that every match sets *)

Lemma repeat_match_reaches fl a greedy s : forall lo hi prev k o,
  Re.repeat_match fl a greedy lo hi prev s k = Some o ->
  exists cur', k cur' = Some o.
Proof.
  induction s as [|c s IH]; intros lo hi prev k o; simpl.
  - destruct lo; [|discriminate]. destruct greedy; simpl; eauto.
    destruct (k _) eqn:E; simpl; [|discriminate]. intros [= <-]. eauto.
  - destruct lo.
    + destruct greedy; simpl.
      * destruct (Re.room hi && Re.atom_match fl a c); simpl; [|eauto].
        destruct (Re.repeat_match _ _ _ _ _ _ _ _) eqn:E; simpl.
        -- intros [= <-]. eapply IH, E.
        -- eauto.
      * destruct (k _) eqn:E; simpl; [intros [= <-]; eauto|].
        destruct (Re.room hi && Re.atom_match fl a c); [|discriminate].
        apply IH.
    + destruct (Re.room hi && Re.atom_match fl a c); [|discriminate].
      apply IH.
Qed.

Lemma run_reaches fl r : forall cur caps k o,
  Re.run fl r cur caps k = Some o ->
  exists cur' caps',
    k cur' caps' = Some o
    /\ forall n, always_sets n r = true \/ is_Some (Re.group n caps) ->
                 is_Some (Re.group n caps').
Proof.
  induction r as [|a|r1 IH1 r2 IH2|r1 IH1 r2 IH2|a lo hi greedy|m r1 IH1
                  |r1 IH1|a| | | |]; intros cur caps k o; simpl.
  - intros H. exists cur, caps. split; [exact H|]. by intros n [[=]|?].
  - destruct (Re.rest cur) as [|c s]; [discriminate|].
    destruct (Re.atom_match fl a c); [|discriminate].
    intros H. eexists _, caps. split; [exact H|]. by intros n [[=]|?].
  - intros H. apply IH1 in H as (c1 & cp1 & H & P1).
    apply IH2 in H as (c2 & cp2 & H & P2).
    exists c2, cp2. split; [exact H|]. intros n [Hn|Hn].
    + apply orb_true_iff in Hn as [Hn|Hn]; [apply P2; right; apply P1|apply P2];
        auto.
    + apply P2. right. apply P1. auto.
  - destruct (Re.run fl r1 cur caps k) eqn:E; simpl.
    + intros [= <-]. apply IH1 in E as (c1 & cp1 & H & P1).
      exists c1, cp1. split; [exact H|]. intros n [Hn|Hn]; apply P1; auto.
      apply andb_true_iff in Hn as [Hn _]. auto.
    + intros H. apply IH2 in H as (c2 & cp2 & H & P2).
      exists c2, cp2. split; [exact H|]. intros n [Hn|Hn]; apply P2; auto.
      apply andb_true_iff in Hn as [_ Hn]. auto.
  - intros H. apply repeat_match_reaches in H as (cur' & H).
    exists cur', caps. split; [exact H|]. by intros n [[=]|?].
  - intros H. apply IH1 in H as (c1 & cp1 & H & P1).
    eexists c1, _. split; [exact H|]. intros n Hn. simpl.
    destruct (Nat.eqb m n) eqn:E; [by eexists|]. apply P1.
    destruct Hn as [Hn|Hn]; [left|right; exact Hn]. exact Hn.
  - destruct (Re.run fl r1 cur caps _) as [[c1 cp1]|] eqn:E; [|discriminate].
    intros H. apply IH1 in E as (c2 & cp2 & [= _ ->] & P1).
    exists cur, cp1. split; [exact H|exact P1].
  - destruct (Re.before cur) as [c|]; [|discriminate].
    destruct (Re.atom_match fl a c); [|discriminate].
    intros H. exists cur, caps. split; [exact H|]. by intros n [[=]|?].
  - destruct (Re.before cur); [discriminate|].
    intros H. exists cur, caps. split; [exact H|]. by intros n [[=]|?].
  - intros H. exists cur, caps. split; [|by intros n [[=]|?]].
    destruct (Re.rest cur) as [|c [|]]; try discriminate; [exact H|].
    by destruct (Ascii.eqb c Py.LF).
  - destruct (Re.rest cur); [|discriminate].
    intros H. exists cur, caps. split; [exact H|]. by intros n [[=]|?].
  - destruct (xorb _ _); [|discriminate].
    intros H. exists cur, caps. split; [exact H|]. by intros n [[=]|?].
Qed.

Lemma at_cursor_groups fl r pos cur m n :
  always_sets n r = true ->
  Re.at_cursor fl r pos cur = Some m -> is_Some (Re.group n (Re.m_caps m)).
Proof.
  intros Hn. unfold Re.at_cursor.
  destruct (Re.run fl r cur [] Re.accept) as [[cur' caps]|] eqn:E;
    [|discriminate].
  intros [= <-]. simpl.
  apply run_reaches in E as (c1 & cp1 & [= _ ->] & P). apply P. by left.
Qed.

Lemma finditer_groups fl r n s : forall prev pos skip m,
  always_sets n r = true ->
  In m (Re.finditer_from fl r prev pos skip s) ->
  is_Some (Re.group n (Re.m_caps m)).
Proof.
  induction s as [|c s IH]; intros prev pos skip m Hn; simpl.
  - destruct skip; [|intros []].
    destruct (Re.at_cursor fl r pos _) as [m'|] eqn:E; [|intros []].
    intros [<-|[]]. by eapply at_cursor_groups.
  - destruct skip; [|by apply IH].
    destruct (Re.at_cursor fl r pos _) as [m'|] eqn:E; [|by apply IH].
    intros [<-|H]; [by eapply at_cursor_groups|by eapply IH].
Qed.

Lemma search_groups fl r n s : forall prev pos m,
  always_sets n r = true ->
  Re.search_from fl r prev pos s = Some m ->
  is_Some (Re.group n (Re.m_caps m)).
Proof.
  induction s as [|c s IH]; intros prev pos m Hn; simpl.
  - destruct (Re.at_cursor fl r pos _) as [m'|] eqn:E; [|discriminate].
    intros [= <-]. by eapply at_cursor_groups.
  - destruct (Re.at_cursor fl r pos _) as [m'|] eqn:E.
    + intros [= <-]. by eapply at_cursor_groups.
    + by apply IH.
Qed.

(** The three groups of a date pattern, and groups 2 and 3 of a month
    pattern, take part in every match: [groups_of] and [check_month]
    never meet a missing group. *)
Lemma date_groups_present filename :
  (forall pattern m n,
     In pattern date_patterns ->
     In m (Re.finditer Re.NOFLAGS pattern filename) ->
     n = 1%nat \/ n = 2%nat \/ n = 3%nat ->
     is_Some (Re.group n (Re.m_caps m)))
  /\ (forall entry m n,
        In entry month_patterns ->
        Re.search Re.NOFLAGS entry.1 filename = Some m ->
        n = 2%nat \/ n = 3%nat ->
        is_Some (Re.group n (Re.m_caps m))).
Proof.
  split.
  - intros pattern m n Hp Hm Hn. eapply finditer_groups; [|exact Hm].
    unfold date_patterns in Hp. simpl in Hp.
    repeat (destruct Hp as [<-|Hp];
            [by destruct Hn as [->|[->| ->]]|]).
    destruct Hp.
  - intros entry m n He Hm Hn. eapply search_groups; [|exact Hm].
    unfold month_patterns in He. simpl in He.
    repeat (destruct He as [<-|He]; [by destruct Hn as [->| ->]|]).
    destruct He.
Qed.
